(** * Swiss tax form stock statements: extraction and aggregation

    A shallow embedding of [src/tax_form/main.py].  The parser works on the
    text of the statements, line by line; the aggregation works on the
    records the parser produced.  Python values are modelled as follows:

    - [str] is [string]; a character is its code point, below 256;
    - a record ([Dict[str, str]]) is an association list, in insertion
      order, and so is the date-keyed aggregate ([Dict[str, float]]), whose
      order the stable sort of the report depends on;
    - [float] is binary64, as [spec_float] with [prec = 53], [emax = 1024];
    - a raised exception is the left injection of a sum. *)

From Stdlib Require Import List String Ascii Bool Arith ZArith NArith Lia.
From Stdlib Require Import Permutation Sorted.
From Stdlib Require Import Floats.SpecFloat.
Import ListNotations.

Local Open Scope string_scope.
Local Open Scope list_scope.

(** ** Python's [str] methods used by the parser *)

Module PyStr.

Definition code (a : ascii) : N := N_of_ascii a.

Definition between (lo hi : N) (a : ascii) : bool :=
  (lo <=? code a)%N && (code a <=? hi)%N.

(** [str.isspace] on one character; also the separators of [split()] and
    the characters removed by [strip()]. *)
Definition isspace_char (a : ascii) : bool :=
  between 9 13 a || between 28 32 a || (code a =? 133)%N || (code a =? 160)%N.

(** [str.isdecimal] on one character. *)
Definition isdecimal_char (a : ascii) : bool := between 48 57 a.

(** [str.isdigit] on one character: the decimal digits and the superscript
    digits one, two and three. *)
Definition isdigit_char (a : ascii) : bool :=
  isdecimal_char a || (code a =? 178)%N || (code a =? 179)%N || (code a =? 185)%N.

Definition isalpha_char (a : ascii) : bool :=
  between 65 90 a || between 97 122 a
  || (code a =? 170)%N || (code a =? 181)%N || (code a =? 186)%N
  || between 192 214 a || between 216 246 a || between 248 255 a.

(** [str.isalnum] on one character: letters, digits and the vulgar
    fractions. *)
Definition isalnum_char (a : ascii) : bool :=
  isalpha_char a || isdigit_char a || between 188 190 a.

Fixpoint forallb_str (p : ascii -> bool) (s : string) : bool :=
  match s with
  | EmptyString => true
  | String a s' => p a && forallb_str p s'
  end.

Definition is_empty (s : string) : bool :=
  match s with EmptyString => true | String _ _ => false end.

(** [s.isdigit()]: false on the empty string. *)
Definition isdigit (s : string) : bool :=
  negb (is_empty s) && forallb_str isdigit_char s.

(** [s.isalnum()]: false on the empty string. *)
Definition isalnum (s : string) : bool :=
  negb (is_empty s) && forallb_str isalnum_char s.

(** [sub in s] *)
Fixpoint contains (sub s : string) : bool :=
  prefix sub s ||
  match s with
  | EmptyString => false
  | String _ s' => contains sub s'
  end.

(** [s.startswith(p)] *)
Definition startswith (p s : string) : bool := prefix p s.

(** [s.split(c)] for a separator of one character: never empty. *)
Fixpoint split_char (c : ascii) (s : string) : list string :=
  match s with
  | EmptyString => [EmptyString]
  | String a s' =>
      if Ascii.eqb a c then EmptyString :: split_char c s'
      else match split_char c s' with
           | h :: t => String a h :: t
           | [] => [String a EmptyString]
           end
  end.

(** [s.replace(c, "")] for [c] of one character. *)
Fixpoint remove_char (c : ascii) (s : string) : string :=
  match s with
  | EmptyString => EmptyString
  | String a s' =>
      if Ascii.eqb a c then remove_char c s' else String a (remove_char c s')
  end.

Fixpoint lstrip (s : string) : string :=
  match s with
  | EmptyString => EmptyString
  | String a s' => if isspace_char a then lstrip s' else s
  end.

Fixpoint rstrip (s : string) : string :=
  match s with
  | EmptyString => EmptyString
  | String a s' =>
      let r := rstrip s' in
      if is_empty r && isspace_char a then EmptyString else String a r
  end.

(** [s.strip()] *)
Definition strip (s : string) : string := rstrip (lstrip s).

(** [s.split()]: the maximal runs of characters that are not white space. *)
Fixpoint split_ws (s : string) : list string :=
  match s with
  | EmptyString => []
  | String a s' =>
      if isspace_char a then split_ws s'
      else match s' with
           | EmptyString => [String a EmptyString]
           | String b _ =>
               if isspace_char b then String a EmptyString :: split_ws s'
               else match split_ws s' with
                    | h :: t => String a h :: t
                    | [] => [String a EmptyString]
                    end
           end
  end.

End PyStr.

(** ** Records *)

(** A record of the parser: field name to raw string value. *)
Definition record := list (string * string).

(** [d.get(key, default)] *)
Fixpoint dict_get {V : Type} (d : list (string * V)) (key : string) (default : V) : V :=
  match d with
  | [] => default
  | (k, v) :: d' => if String.eqb k key then v else dict_get d' key default
  end.

(** [d[key]]: [None] stands for [KeyError]. *)
Fixpoint dict_lookup {V : Type} (d : list (string * V)) (key : string) : option V :=
  match d with
  | [] => None
  | (k, v) :: d' => if String.eqb k key then Some v else dict_lookup d' key
  end.

(** [d[key] = f(d[key])] on a key that is present. *)
Fixpoint dict_update {V : Type} (d : list (string * V)) (key : string) (f : V -> V)
  : list (string * V) :=
  match d with
  | [] => []
  | (k, v) :: d' =>
      if String.eqb k key then (k, f v) :: d' else (k, v) :: dict_update d' key f
  end.

(** [key in d] *)
Definition dict_mem {V : Type} (d : list (string * V)) (key : string) : bool :=
  match dict_lookup d key with Some _ => true | None => false end.

(** ** The vested-stocks section *)

Section VestedStocks.
Import PyStr.

(** The line that opens the section. *)
Definition vested_start (line : string) : bool :=
  contains "Vested Stocks" line && contains "2024" line.

Definition vested_header (line : string) : bool :=
  (contains "Award" line && contains "Date" line) || contains "Date Date Price" line.

(** The total line at the end of the table. *)
Definition vested_total_line (line : string) : bool :=
  isdigit (remove_char " " (remove_char "'" (remove_char "." (strip line)))).

(** The date check of a data row: [DD.MM.YYYY]. *)
Definition vest_date_ok (vest_date : string) : bool :=
  contains "." vest_date && Nat.eqb (List.length (split_char "." vest_date)) 3.

(** The body of the [try] on a data row; [None] is the [IndexError] that
    the [except] clause turns into a skipped line. *)
Definition vested_row (parts : list string) : option (list record) :=
  match nth_error parts 2 with
  | None => None
  | Some vest_date =>
      match nth_error parts 5 with
      | None => None
      | Some shares =>
          if vest_date_ok vest_date
          then Some [[("Vest Date", vest_date); ("Shares", shares)]]
          else Some []
      end
  end.

(** The [for] loop of [extract_vested_stocks_from_text], from the state it
    has reached. *)
Fixpoint vested_scan (in_vested_section : bool) (header_line_count : nat)
    (vested_stocks : list record) (lines : list string) : list record :=
  match lines with
  | [] => vested_stocks
  | line :: rest =>
      if vested_start line then
        vested_scan true header_line_count vested_stocks rest
      else if contains "ESPP" line then
        vested_stocks
      else if in_vested_section && negb (is_empty (strip line)) then
        if vested_header line then
          vested_scan in_vested_section (S header_line_count) vested_stocks rest
        else if vested_total_line line then
          vested_scan in_vested_section header_line_count vested_stocks rest
        else
          let parts := split_ws line in
          if (6 <=? List.length parts)%nat then
            match vested_row parts with
            | Some new => vested_scan in_vested_section header_line_count
                            (vested_stocks ++ new) rest
            | None => vested_scan in_vested_section header_line_count vested_stocks rest
            end
          else vested_scan in_vested_section header_line_count vested_stocks rest
      else vested_scan in_vested_section header_line_count vested_stocks rest
  end.

Definition extract_vested_stocks_from_text (text : string) : list record :=
  vested_scan false 0 [] (split_char "010" text).

End VestedStocks.

Definition nl : string := String "010" EmptyString.

Definition scenario_A : string :=
  "Vested Stocks 2024" ++ nl ++
  "Award Date Award ID Date Price" ++ nl ++
  "01.03.2022 AB123 15.03.2024 10.00 1500.00 150" ++ nl ++
  "Total 150".

(** ** Python's [float]: binary64 *)

Module PyFloat.

Definition prec : Z := 53.
Definition emax : Z := 1024.

Definition float := spec_float.

Definition add : float -> float -> float := SFadd prec emax.
Definition sub : float -> float -> float := SFsub prec emax.
Definition abs : float -> float := SFabs.

(** [x >= y] *)
Definition ge (x y : float) : bool := SFleb y x.

(** The conversion of a Python [int]. *)
Definition of_int (n : Z) : float := binary_normalize prec emax n 0 false.

Definition zero : float := S754_zero false.

(** *** [float(s)] on a string

    The steps of CPython: white space beyond ASCII becomes a blank and any
    other character beyond ASCII is refused; an underscore is dropped when
    it stands between two digits and refused otherwise; ASCII white space
    is stripped at both ends; what remains is a signed decimal literal,
    [inf], [infinity] or [nan], and is rounded to the nearest binary64,
    ties to even.  [None] stands for [ValueError]. *)

Definition c_isspace (a : ascii) : bool :=
  PyStr.between 9 13 a || (PyStr.code a =? 32)%N.

Fixpoint to_ascii (s : string) : option string :=
  match s with
  | EmptyString => Some EmptyString
  | String a s' =>
      if (PyStr.code a <? 128)%N then option_map (String a) (to_ascii s')
      else if PyStr.isspace_char a then option_map (String " ") (to_ascii s')
      else None
  end.

Fixpoint drop_underscores (prev : ascii) (s : string) : option string :=
  match s with
  | EmptyString => if Ascii.eqb prev "_" then None else Some EmptyString
  | String a s' =>
      if Ascii.eqb a "_" then
        if PyStr.isdecimal_char prev then drop_underscores a s' else None
      else if Ascii.eqb prev "_" && negb (PyStr.isdecimal_char a) then None
      else option_map (String a) (drop_underscores a s')
  end.

Fixpoint c_lstrip (s : string) : string :=
  match s with
  | EmptyString => EmptyString
  | String a s' => if c_isspace a then c_lstrip s' else s
  end.

Fixpoint c_rstrip (s : string) : string :=
  match s with
  | EmptyString => EmptyString
  | String a s' =>
      let r := c_rstrip s' in
      if PyStr.is_empty r && c_isspace a then EmptyString else String a r
  end.

(** The longest prefix of decimal digits, and the rest. *)
Fixpoint span_digits (s : string) : string * string :=
  match s with
  | EmptyString => (EmptyString, EmptyString)
  | String a s' =>
      if PyStr.isdecimal_char a
      then let '(d, r) := span_digits s' in (String a d, r)
      else (EmptyString, s)
  end.

Definition digit_value (a : ascii) : Z := Z.of_N (PyStr.code a) - 48.

Fixpoint digits_value (acc : Z) (s : string) : Z :=
  match s with
  | EmptyString => acc
  | String a s' => digits_value (10 * acc + digit_value a) s'
  end.

Definition lower_char (a : ascii) : ascii :=
  if PyStr.between 65 90 a then ascii_of_N (PyStr.code a + 32) else a.

Fixpoint lower (s : string) : string :=
  match s with
  | EmptyString => EmptyString
  | String a s' => String (lower_char a) (lower s')
  end.

Definition parse_sign (s : string) : bool * string :=
  match s with
  | String "-" s' => (true, s')
  | String "+" s' => (false, s')
  | _ => (false, s)
  end.

(** The exponent part, when it is well formed and ends the string. *)
Definition parse_exponent (s : string) : option Z :=
  match s with
  | EmptyString => Some 0%Z
  | String c s' =>
      if Ascii.eqb c "e" || Ascii.eqb c "E" then
        let '(neg, s'') := parse_sign s' in
        let '(d, r) := span_digits s'' in
        if PyStr.is_empty d || negb (PyStr.is_empty r) then None
        else Some (if neg then - digits_value 0 d else digits_value 0 d)%Z
      else None
  end.

(** [m * 10 ^ e], rounded to nearest, ties to even. *)
Definition of_decimal (neg : bool) (m e : Z) : float :=
  match m with
  | Zpos p =>
      match e with
      | Zneg q => SFdiv prec emax (S754_finite neg p 0)
                    (S754_finite false (Pos.pow 10 q) 0)
      | _ => binary_normalize prec emax
               (if neg then - (m * 10 ^ e) else m * 10 ^ e) 0 false
      end
  | _ => S754_zero neg
  end.

Definition parse_decimal (neg : bool) (s : string) : option float :=
  let '(int_part, r) := span_digits s in
  let '(frac_part, r') :=
    match r with
    | String "." r1 => span_digits r1
    | _ => (EmptyString, r)
    end in
  if PyStr.is_empty int_part && PyStr.is_empty frac_part then None
  else
    match parse_exponent r' with
    | None => None
    | Some x =>
        Some (of_decimal neg (digits_value (digits_value 0 int_part) frac_part)
                (x - Z.of_nat (String.length frac_part)))
    end.

Definition parse_number (s : string) : option float :=
  let '(neg, body) := parse_sign s in
  let word := lower body in
  if String.eqb word "inf" || String.eqb word "infinity" then Some (S754_infinity neg)
  else if String.eqb word "nan" then Some S754_nan
  else parse_decimal neg body.

Definition of_string (s : string) : option float :=
  match to_ascii s with
  | None => None
  | Some s1 =>
      match drop_underscores "000" s1 with
      | None => None
      | Some s2 => parse_number (c_rstrip (c_lstrip s2))
      end
  end.

End PyFloat.

(** ** The ESPP section *)

Section Espp.
Import PyStr.

Definition espp_start (line : string) : bool :=
  contains "ESPP (Employee Stock Purchase Plan)" line.

(** The end of the data, or the next section. *)
Definition espp_stop (line : string) : bool :=
  contains "Total amount" line || contains "Page" line.

Definition espp_header (line : string) : bool :=
  (contains "Off Period" line && contains "Purchased" line)
  || contains "Shares Price" line.

Definition off_period_ok (off_period purchased_shares : string) : bool :=
  isdigit off_period
  || (isalnum off_period && isdigit (remove_char "." purchased_shares)).

(** The body of the [try] on a data row; [None] is the [IndexError]. *)
Definition espp_row (parts : list string) : option (list record) :=
  match nth_error parts 0 with
  | None => None
  | Some off_period =>
      match nth_error parts 1 with
      | None => None
      | Some purchased_shares =>
          if off_period_ok off_period purchased_shares
          then Some [[("Off Period", off_period);
                      ("Purchased Shares", purchased_shares)]]
          else Some []
      end
  end.

(** The [for] loop of [extract_espp_from_text], from the state it has
    reached. *)
Fixpoint espp_scan (in_espp_section : bool) (header_line_count : nat)
    (espp_data : list record) (lines : list string) : list record :=
  match lines with
  | [] => espp_data
  | line :: rest =>
      if espp_start line then
        espp_scan true header_line_count espp_data rest
      else if in_espp_section && espp_stop line then
        espp_data
      else if in_espp_section && negb (is_empty (strip line)) then
        if espp_header line then
          espp_scan in_espp_section (S header_line_count) espp_data rest
        else if startswith "CHF" (strip line) then
          espp_scan in_espp_section header_line_count espp_data rest
        else
          let parts := split_ws line in
          if (2 <=? List.length parts)%nat then
            match espp_row parts with
            | Some new => espp_scan in_espp_section header_line_count
                            (espp_data ++ new) rest
            | None => espp_scan in_espp_section header_line_count espp_data rest
            end
          else espp_scan in_espp_section header_line_count espp_data rest
      else espp_scan in_espp_section header_line_count espp_data rest
  end.

Definition extract_espp_from_text (text : string) : list record :=
  espp_scan false 0 [] (split_char "010" text).

End Espp.

(** ** Python's [re], as far as the sale pattern needs it *)

Module PyRe.

(** A pattern is a sequence of greedy repetitions of one character class,
    with the marks where a group opens and closes. *)
Inductive item : Type :=
| Rep (cls : ascii -> bool) (lo : nat) (hi : option nat)
| Open (g : nat)
| Close (g : nat).

(** The groups closed so far, as (group, start, end), and the starts of the
    groups that are open. *)
Record caps : Type := { opened : list (nat * nat); closed : list (nat * (nat * nat)) }.

Definition more (hi : option nat) : bool :=
  match hi with None => true | Some h => (0 <? h)%nat end.

(** A greedy repetition: as many characters as the class and the bound
    allow, then one fewer each time the rest of the pattern fails. *)
Fixpoint rep (cls : ascii -> bool) (k : string -> nat -> option caps)
    (lo : nat) (hi : option nat) (s : string) (i : nat) : option caps :=
  let stop := if (lo =? 0)%nat then k s i else None in
  match s with
  | EmptyString => stop
  | String a s' =>
      if cls a && more hi then
        match rep cls k (Nat.pred lo) (option_map Nat.pred hi) s' (S i) with
        | Some r => Some r
        | None => stop
        end
      else stop
  end.

Fixpoint start_of (g : nat) (o : list (nat * nat)) : nat :=
  match o with
  | [] => 0
  | (g', i) :: o' => if (g' =? g)%nat then i else start_of g o'
  end.

Fixpoint match_here (p : list item) (c : caps) (s : string) (i : nat) : option caps :=
  match p with
  | [] => Some c
  | Rep cls lo hi :: p' => rep cls (match_here p' c) lo hi s i
  | Open g :: p' =>
      match_here p' {| opened := (g, i) :: opened c; closed := closed c |} s i
  | Close g :: p' =>
      match_here p' {| opened := opened c;
                       closed := (g, (start_of g (opened c), i)) :: closed c |} s i
  end.

(** [re.search]: the first position from which the pattern matches. *)
Fixpoint search_from (p : list item) (s : string) (i : nat) : option caps :=
  match match_here p {| opened := []; closed := [] |} s i with
  | Some c => Some c
  | None =>
      match s with
      | EmptyString => None
      | String _ s' => search_from p s' (S i)
      end
  end.

Fixpoint span_of (g : nat) (cl : list (nat * (nat * nat))) : nat * nat :=
  match cl with
  | [] => (0, 0)
  | (g', se) :: cl' => if (g' =? g)%nat then se else span_of g cl'
  end.

(** [match.group(g)] on the string that was searched. *)
Definition group (s : string) (c : caps) (g : nat) : string :=
  let '(b, e) := span_of g (closed c) in substring b (e - b) s.

Definition search (p : list item) (s : string) : option caps := search_from p s 0.

(** [\w], [\d] and [\s] on [str] patterns. *)
Definition word (a : ascii) : bool := PyStr.isalnum_char a || Ascii.eqb a "_".
Definition digit (a : ascii) : bool := PyStr.isdecimal_char a.
Definition space (a : ascii) : bool := PyStr.isspace_char a.
Definition lit (c : ascii) (a : ascii) : bool := Ascii.eqb a c.

Definition exactly (cls : ascii -> bool) (n : nat) : item := Rep cls n (Some n).
Definition plus (cls : ascii -> bool) : item := Rep cls 1 None.

End PyRe.

(** ** Sale transactions *)

Section Transactions.
Import PyRe.

(** [\w{3}-\d{2}-\d{4}] *)
Definition date_shape : list item :=
  [exactly word 3; exactly (lit "-") 1; exactly digit 2; exactly (lit "-") 1;
   exactly digit 4].

(** [(\w{3}-\d{2}-\d{4})\s+(\w{3}-\d{2}-\d{4})\s+([\d.]+)\s+\$[\d,.]+] *)
Definition pattern : list item :=
  [Open 1] ++ date_shape ++ [Close 1; plus space] ++
  [Open 2] ++ date_shape ++ [Close 2; plus space] ++
  [Open 3; plus (fun a => digit a || lit "." a); Close 3; plus space;
   exactly (lit "$") 1; plus (fun a => digit a || lit "," a || lit "." a)].

Fixpoint transactions_of_lines (transactions : list record) (lines : list string)
  : list record :=
  match lines with
  | [] => transactions
  | line :: rest =>
      match search pattern line with
      | Some m =>
          let date_sold := group line m 1 in
          let quantity := group line m 3 in
          transactions_of_lines
            (transactions ++ [[("Date sold or transferred", date_sold);
                               ("Quantity", quantity)]]) rest
      | None => transactions_of_lines transactions rest
      end
  end.

Definition extract_transactions_from_text (text : string) : list record :=
  transactions_of_lines [] (PyStr.split_char "010" text).

End Transactions.

Definition scenario_C : string :=
  "Jan-16-2024 Jun-01-2020 3.0000 $549.75 $1,175.99 + $626.24 USD DO".

(** ** Aggregation by date *)

Section Aggregation.
Import PyFloat.

(** The date-keyed sums, in the order in which the dates first occur. *)
Definition aggregate := list (string * float).

(** One more quantity for a date: added to the entry of the date when
    there is one, a new entry otherwise. *)
Definition add_quantity (date_quantities : aggregate) (date : string) (quantity : float)
  : aggregate :=
  if dict_mem date_quantities date
  then dict_update date_quantities date (fun q => add q quantity)
  else date_quantities ++ [(date, quantity)].

(** The [for] loop of [aggregate_by_date]. *)
Fixpoint aggregate_loop (date_quantities : aggregate) (data : list record) : aggregate :=
  match data with
  | [] => date_quantities
  | transaction :: rest =>
      let date_sold := dict_get transaction "Date sold or transferred" "" in
      let quantity_str := dict_get transaction "Quantity" "0" in
      match of_string quantity_str with
      | None => aggregate_loop date_quantities rest
      | Some quantity =>
          aggregate_loop (add_quantity date_quantities date_sold quantity) rest
      end
  end.

Definition aggregate_by_date (data : list record) : aggregate :=
  aggregate_loop [] data.

(** [shares.replace(",", "").replace("'", "")] *)
Definition clean_shares (shares : string) : string :=
  PyStr.remove_char "'" (PyStr.remove_char "," shares).

(** The aggregation loop of [display_vested_results]; [None] is the
    [KeyError] of a record without one of the two fields. *)
Fixpoint vested_aggregate_loop (date_shares : aggregate) (vested_stocks : list record)
  : option aggregate :=
  match vested_stocks with
  | [] => Some date_shares
  | entry :: rest =>
      match dict_lookup entry "Vest Date" with
      | None => None
      | Some vest_date =>
          match dict_lookup entry "Shares" with
          | None => None
          | Some shares =>
              match of_string (clean_shares shares) with
              | Some shares_float =>
                  vested_aggregate_loop (add_quantity date_shares vest_date shares_float) rest
              | None => vested_aggregate_loop date_shares rest
              end
          end
      end
  end.

Definition aggregate_vested (vested_stocks : list record) : option aggregate :=
  vested_aggregate_loop [] vested_stocks.

(** The running total of a report: [total = 0], then [total += q]. *)
Definition total_of (l : list float) : float := fold_left add l (of_int 0).

End Aggregation.

(** ** Dates and the order of the report *)

Module PyDate.

(** A [datetime] at midnight. *)
Record datetime : Type := { year : Z; month : Z; day : Z }.

(** [a < b] *)
Definition ltb (a b : datetime) : bool :=
  ((year a <? year b)
   || ((year a =? year b) && ((month a <? month b)
                              || ((month a =? month b) && (day a <? day b)))))%Z.

Definition is_leap (y : Z) : bool :=
  ((y mod 4 =? 0) && (negb (y mod 100 =? 0) || (y mod 400 =? 0)))%Z.

Definition days_in_month (y m : Z) : Z :=
  if (m =? 2)%Z then (if is_leap y then 29 else 28)%Z
  else if ((m =? 4) || (m =? 6) || (m =? 9) || (m =? 11))%Z then 30%Z
  else 31%Z.

(** [%b] in the C locale, whatever the case of the letters. *)
Definition month_of_abbr (s : string) : option Z :=
  let fix find (names : list string) (m : Z) : option Z :=
    match names with
    | [] => None
    | n :: names' => if String.eqb (PyFloat.lower s) n then Some m else find names' (m + 1)%Z
    end in
  find ["jan"; "feb"; "mar"; "apr"; "may"; "jun";
        "jul"; "aug"; "sep"; "oct"; "nov"; "dec"] 1%Z.

Definition in_range (lo hi : ascii) (a : ascii) : bool :=
  (PyStr.code lo <=? PyStr.code a)%N && (PyStr.code a <=? PyStr.code hi)%N.

(** [%d]: the alternatives [3[0-1]], [[1-2]\d], [0[1-9]], [[1-9]] and
    [ [1-9]], in this order, each with the day it reads and what follows. *)
Definition day_alternatives (s : string) : list (Z * string) :=
  let two (p1 p2 : ascii -> bool) :=
    match s with
    | String c1 (String c2 r) =>
        if p1 c1 && p2 c2
        then [((if Ascii.eqb c1 " " then 0 else 10 * PyFloat.digit_value c1)
               + PyFloat.digit_value c2, r)%Z]
        else []
    | _ => []
    end in
  let one (p1 : ascii -> bool) :=
    match s with
    | String c1 r => if p1 c1 then [(PyFloat.digit_value c1, r)] else []
    | _ => []
    end in
  two (in_range "3" "3") (in_range "0" "1")
  ++ two (in_range "1" "2") PyStr.isdecimal_char
  ++ two (in_range "0" "0") (in_range "1" "9")
  ++ one (in_range "1" "9")
  ++ two (in_range " " " ") (in_range "1" "9").

(** [-\d\d\d\d] after the day: the year and what follows it. *)
Definition year_after_day (r : string) : option (Z * string) :=
  match r with
  | String "-" (String y1 (String y2 (String y3 (String y4 tail)))) =>
      if PyStr.forallb_str PyStr.isdecimal_char
           (String y1 (String y2 (String y3 (String y4 EmptyString))))
      then Some (PyFloat.digits_value 0
                   (String y1 (String y2 (String y3 (String y4 EmptyString)))), tail)
      else None
  | _ => None
  end.

(** The first alternative of the day after which the year matches. *)
Fixpoint first_day (alts : list (Z * string)) : option (Z * Z * string) :=
  match alts with
  | [] => None
  | (d, r) :: alts' =>
      match year_after_day r with
      | Some (y, tail) => Some (d, y, tail)
      | None => first_day alts'
      end
  end.

(** [datetime.strptime(s, "%b-%d-%Y")]; [None] is [ValueError]: the
    string does not match, some of it is left over, or there is no such
    day. *)
Definition strptime (s : string) : option datetime :=
  match s with
  | String b1 (String b2 (String b3 (String "-" r))) =>
      match month_of_abbr (String b1 (String b2 (String b3 EmptyString))) with
      | None => None
      | Some m =>
          match first_day (day_alternatives r) with
          | Some (d, y, EmptyString) =>
              if ((1 <=? y) && (d <=? days_in_month y m))%Z
              then Some {| year := y; month := m; day := d |}
              else None
          | _ => None
          end
      end
  | _ => None
  end.

End PyDate.

Section Report.
Import PyDate.

(** The sort key of [display_results]: the date of the key, or a very early
    date when the key is not a date. *)
Definition parse_date (date_str : string) : datetime :=
  match strptime date_str with
  | Some d => d
  | None => {| year := 1900; month := 1; day := 1 |}
  end.

(** [sorted(l, key=key)]: a stable sort that compares the keys with [<]. *)
Fixpoint insert_sorted {A : Type} (key : A -> datetime) (x : A) (l : list A) : list A :=
  match l with
  | [] => [x]
  | y :: l' => if ltb (key y) (key x) then y :: insert_sorted key x l' else x :: l
  end.

Fixpoint sorted {A : Type} (key : A -> datetime) (l : list A) : list A :=
  match l with
  | [] => []
  | x :: l' => insert_sorted key x (sorted key l')
  end.

(** The rows of the table of [display_results], top to bottom: none when
    there is no data. *)
Definition display_results (data : list record) : list (string * PyFloat.float) :=
  match data with
  | [] => []
  | _ => sorted (fun x => parse_date (fst x)) (aggregate_by_date data)
  end.

End Report.

(** ** The summary *)

Inductive net_label : Type := Remaining | Oversold.

(** The text printed in front of the net position. *)
Definition label_text (l : net_label) : string :=
  match l with
  | Remaining => "Net Position (Remaining):"
  | Oversold => "Net Position (Oversold):"
  end.

(** The net position line of [display_summary]: its label and the number
    that is printed after it. *)
Definition display_summary (total_vested total_purchased total_sold : PyFloat.float)
  : net_label * PyFloat.float :=
  let difference := PyFloat.sub (PyFloat.add total_vested total_purchased) total_sold in
  if PyFloat.ge difference (PyFloat.of_int 0)
  then (Remaining, difference)
  else (Oversold, PyFloat.abs difference).

(** ** Reading the statements

    The text of a statement comes from [pdfplumber]: opening the file gives
    its pages or raises, and so does the extraction of the text of a page.
    What the library does is an input of the functions below. *)

Inductive pyexc : Type :=
| Exc (msg : string)      (** an instance of [Exception] *)
| BaseExc (msg : string). (** any other exception, such as [KeyboardInterrupt] *)

(** A value, or the exception raised in its place. *)
Definition result (A : Type) : Type := (pyexc + A)%type.

(** [page.extract_text()]: the text of the page, if it has any. *)
Definition page := result (option string).

(** [pdfplumber.open(pdf_path)] with [pdf.pages]. *)
Definition pdf := result (list page).

Section Reading.
Import PyFloat.

(** The pages of [extract_table_from_pdf], in order. *)
Fixpoint table_of_pages (all_transactions : list record) (pages : list page)
  : result (list record) :=
  match pages with
  | [] => inr all_transactions
  | inl e :: _ => inl e
  | inr None :: rest => table_of_pages all_transactions rest
  | inr (Some page_text) :: rest =>
      if PyStr.is_empty page_text then table_of_pages all_transactions rest
      else table_of_pages
             (all_transactions ++ extract_transactions_from_text page_text) rest
  end.

(** The [except] clause logs the exception and raises it again. *)
Definition extract_table_from_pdf (opening : pdf) : result (list record) :=
  match opening with
  | inl e => inl e
  | inr pages =>
      match table_of_pages [] pages with
      | inl e => inl e
      | inr all_transactions => inr all_transactions
      end
  end.

(** [all_text] of [extract_vested_data]. *)
Fixpoint text_of_pages (all_text : string) (pages : list page) : result string :=
  match pages with
  | [] => inr all_text
  | inl e :: _ => inl e
  | inr None :: rest => text_of_pages all_text rest
  | inr (Some text) :: rest =>
      if PyStr.is_empty text then text_of_pages all_text rest
      else text_of_pages (all_text ++ text ++ nl) rest
  end.

(** The two lists of [extract_vested_data]: vested stocks and ESPP. *)
Definition extract_vested_data (opening : pdf) : result (list record * list record) :=
  match opening with
  | inl e => inl e
  | inr pages =>
      match text_of_pages "" pages with
      | inl e => inl e
      | inr all_text =>
          inr (extract_vested_stocks_from_text all_text,
               extract_espp_from_text all_text)
      end
  end.

(** [total += float(f(entry))], skipping the entries that are not numbers. *)
Fixpoint sum_parsed (f : record -> string) (total : float) (data : list record) : float :=
  match data with
  | [] => total
  | entry :: rest =>
      match of_string (f entry) with
      | Some q => sum_parsed f (add total q) rest
      | None => sum_parsed f total rest
      end
  end.

(** The same with [entry[field]], which raises [KeyError] ([None]) on a
    record without the field. *)
Fixpoint sum_field (field : string) (total : float) (data : list record) : option float :=
  match data with
  | [] => Some total
  | entry :: rest =>
      match dict_lookup entry field with
      | None => None
      | Some shares =>
          match of_string (clean_shares shares) with
          | Some q => sum_field field (add total q) rest
          | None => sum_field field total rest
          end
      end
  end.

(** What [except Exception] does with an exception: the value it returns
    for an [Exception], the exception itself otherwise. *)
Definition except_Exception {A : Type} (fallback : A) (r : result A) : result A :=
  match r with
  | inl (Exc _) => inr fallback
  | inl (BaseExc m) => inl (BaseExc m)
  | inr v => inr v
  end.

(** [read_sold_shares]: [file_exists] is what [Path(pdf_path).exists()]
    returns.  That call and the [print] after it stand before the [try]:
    what they may raise themselves is not part of this model. *)
Definition read_sold_shares (file_exists : bool) (opening : pdf) : result float :=
  if negb file_exists then inr zero
  else
    except_Exception zero
      match extract_table_from_pdf opening with
      | inl e => inl e
      | inr [] => inr zero
      | inr transactions =>
          inr (sum_parsed (fun t => dict_get t "Quantity" "0") zero transactions)
      end.

(** [read_vested_data]: the totals of vested and of purchased shares;
    [file_exists] as in [read_sold_shares]. *)
Definition read_vested_data (file_exists : bool) (opening : pdf) : result (float * float) :=
  if negb file_exists then inr (zero, zero)
  else
    except_Exception (zero, zero)
      match extract_vested_data opening with
      | inl e => inl e
      | inr ([], []) => inr (zero, zero)
      | inr (vested_stocks, espp_data) =>
          match sum_field "Shares" zero vested_stocks,
                sum_field "Purchased Shares" zero espp_data with
          | Some total_vested, Some total_purchased =>
              inr (total_vested, total_purchased)
          | _, _ => inl (Exc "KeyError")
          end
      end.

End Reading.

(** ** The vocabulary of the properties *)

(** What one line adds to the transactions. *)
Definition transaction_of_line (line : string) : list record :=
  match PyRe.search pattern line with
  | Some m => [[("Date sold or transferred", PyRe.group line m 1);
                ("Quantity", PyRe.group line m 3)]]
  | None => []
  end.

(** [x] is zero or above it. *)
Definition nonnegative (x : PyFloat.float) : Prop :=
  SFcompare x PyFloat.zero = Some Eq \/ SFcompare x PyFloat.zero = Some Gt.

(** [x] is below zero. *)
Definition negative (x : PyFloat.float) : Prop :=
  SFcompare x PyFloat.zero = Some Lt.

(** [pdfplumber] raises [e]: when it opens the file, or on the first page
    whose text it cannot extract. *)
Inductive fails_with (e : pyexc) : pdf -> Prop :=
| fails_open : fails_with e (inl e)
| fails_page (read : list (option string)) (rest : list page) :
    fails_with e (inr (map inr read ++ inl e :: rest)).

(** What a caller of the reading operations sees of a failure [e]. *)
Definition seen_by_caller {A : Type} (fallback : A) (e : pyexc) : result A :=
  match e with
  | Exc _ => inr fallback
  | BaseExc _ => inl e
  end.

(** The records of the lines scanned from the top of a text. *)
Definition vested_records (lines : list string) : list record := vested_scan false 0 [] lines.
Definition espp_records (lines : list string) : list record := espp_scan false 0 [] lines.

(** A line that the scan of the vested-stocks section passes over in state
    [b]. *)
Definition skips (b : bool) (l : string) : Prop :=
  forall h acc rest, vested_scan b h acc (l :: rest) = vested_scan b h acc rest.

(** The characters of a total line. *)
Definition total_char (a : ascii) : bool :=
  PyStr.isdigit_char a || Ascii.eqb a " " || Ascii.eqb a "'" || Ascii.eqb a "."
  || PyStr.isspace_char a.

(** A row with too few fields, or whose third field is not a date. *)
Definition bad_row (l : string) : Prop :=
  (List.length (PyStr.split_ws l) < 6)%nat
  \/ exists d, nth_error (PyStr.split_ws l) 2 = Some d /\ vest_date_ok d = false.

(** [x] may stand before [y] in a list sorted by [key]. *)
Definition in_order {A : Type} (key : A -> PyDate.datetime) (x y : A) : Prop :=
  PyDate.ltb (key y) (key x) = false.

(** [a] stands before [b] in [l]. *)
Definition precedes {A : Type} (a b : A) (l : list A) : Prop :=
  exists l1 l2 l3, l = l1 ++ a :: l2 ++ b :: l3.

(** The records whose quantity is a number, as date and quantity; the
    others are dropped. *)
Definition parsed (data : list record) : list (string * PyFloat.float) :=
  flat_map
    (fun transaction =>
       match PyFloat.of_string (dict_get transaction "Quantity" "0") with
       | Some quantity => [(dict_get transaction "Date sold or transferred" "", quantity)]
       | None => []
       end) data.

(** The quantities of one date, in the order of the records. *)
Definition quantities_of (date : string) (ps : list (string * PyFloat.float)) : list PyFloat.float :=
  map snd (filter (fun p => String.eqb (fst p) date) ps).

(** The sum of quantities added one after the other to the first. *)
Definition sum_in_order (qs : list PyFloat.float) : option PyFloat.float :=
  match qs with
  | [] => None
  | q :: qs' => Some (fold_left PyFloat.add qs' q)
  end.

(** The same, on top of what the date already has. *)
Definition sum_onto (start : option PyFloat.float) (qs : list PyFloat.float) : option PyFloat.float :=
  match start with
  | Some v => Some (fold_left PyFloat.add qs v)
  | None => sum_in_order qs
  end.

Definition add_all (acc : aggregate) (ps : list (string * PyFloat.float)) : aggregate :=
  fold_left (fun a p => add_quantity a (fst p) (snd p)) ps acc.

(** Two sale rows: the row of scenario C, then one whose first field is
    shaped like a date and is not one. *)
Definition sales_2024 : string :=
  scenario_C ++ nl ++ "Foo-99-2024 Jun-01-2020 2 $1".

(** Two sale rows: one whose first field is not a date, then one sold on
    1 January 1800. *)
Definition sales_1800 : string :=
  "Foo-99-2024 Jun-01-2020 2 $1" ++ nl ++ "Jan-01-1800 Jun-01-1799 1 $1".

(** Three sale rows on two days. *)
Definition sales_rounding : string :=
  "Jan-16-2024 Jun-01-2020 1 $1" ++ nl ++
  "Jan-17-2024 Jun-01-2020 10000000000000000 $1" ++ nl ++
  "Jan-16-2024 Jun-01-2020 1 $1".

(** ** The other readers and reports *)

(** The pages of [extract_vested_stocks], in order: each page is scanned on
    its own, and what it gives is added to the two lists. *)
Fixpoint vested_stocks_of_pages (results : list record * list record) (pages : list page)
  : result (list record * list record) :=
  match pages with
  | [] => inr results
  | inl e :: _ => inl e
  | inr None :: rest => vested_stocks_of_pages results rest
  | inr (Some page_text) :: rest =>
      if PyStr.is_empty page_text then vested_stocks_of_pages results rest
      else vested_stocks_of_pages
             (fst results ++ extract_vested_stocks_from_text page_text,
              snd results ++ extract_espp_from_text page_text) rest
  end.

(** The [except] clause logs the exception and raises it again. *)
Definition extract_vested_stocks (opening : pdf) : result (list record * list record) :=
  match opening with
  | inl e => inl e
  | inr pages =>
      match vested_stocks_of_pages ([], []) pages with
      | inl e => inl e
      | inr results => inr results
      end
  end.

(** [%m]: the alternatives [1[0-2]], [0[1-9]] and [[1-9]], in this order,
    each with the month it reads and what follows. *)
Definition month_alternatives (s : string) : list (Z * string) :=
  let two (p1 p2 : ascii -> bool) :=
    match s with
    | String c1 (String c2 r) =>
        if p1 c1 && p2 c2
        then [(10 * PyFloat.digit_value c1 + PyFloat.digit_value c2, r)%Z]
        else []
    | _ => []
    end in
  let one (p1 : ascii -> bool) :=
    match s with
    | String c1 r => if p1 c1 then [(PyFloat.digit_value c1, r)] else []
    | _ => []
    end in
  two (PyDate.in_range "1" "1") (PyDate.in_range "0" "2")
  ++ two (PyDate.in_range "0" "0") (PyDate.in_range "1" "9")
  ++ one (PyDate.in_range "1" "9").

(** [\.\d\d\d\d] after the month: the year and what follows it. *)
Definition year_after_month (r : string) : option (Z * string) :=
  match r with
  | String "." (String y1 (String y2 (String y3 (String y4 tail)))) =>
      if PyStr.forallb_str PyStr.isdecimal_char
           (String y1 (String y2 (String y3 (String y4 EmptyString))))
      then Some (PyFloat.digits_value 0
                   (String y1 (String y2 (String y3 (String y4 EmptyString)))), tail)
      else None
  | _ => None
  end.

(** The first alternative of the month after which the year matches. *)
Fixpoint first_month (alts : list (Z * string)) : option (Z * Z * string) :=
  match alts with
  | [] => None
  | (m, r) :: alts' =>
      match year_after_month r with
      | Some (y, tail) => Some (m, y, tail)
      | None => first_month alts'
      end
  end.

(** The first alternative of the day after which a dot, the month and the
    year match. *)
Fixpoint first_day_month (alts : list (Z * string)) : option (Z * Z * Z * string) :=
  match alts with
  | [] => None
  | (d, r) :: alts' =>
      match r with
      | String "." r' =>
          match first_month (month_alternatives r') with
          | Some (m, y, tail) => Some (d, m, y, tail)
          | None => first_day_month alts'
          end
      | _ => first_day_month alts'
      end
  end.

(** [datetime.strptime(s, "%d.%m.%Y")]; [None] is [ValueError]. *)
Definition strptime_dmy (s : string) : option PyDate.datetime :=
  match first_day_month (PyDate.day_alternatives s) with
  | Some (d, m, y, EmptyString) =>
      if ((1 <=? y) && (d <=? PyDate.days_in_month y m))%Z
      then Some {| PyDate.year := y; PyDate.month := m; PyDate.day := d |}
      else None
  | _ => None
  end.

(** The sort key of [display_vested_results]. *)
Definition parse_vest_date (date_str : string) : PyDate.datetime :=
  match strptime_dmy date_str with
  | Some d => d
  | None => {| PyDate.year := 1900; PyDate.month := 1; PyDate.day := 1 |}
  end.

(** The rows of the vested table of [display_vested_results], top to
    bottom: none when there is no vested record; [None] is the [KeyError] of
    a record without one of the two fields. *)
Definition display_vested_results (vested_stocks : list record)
  : option (list (string * PyFloat.float)) :=
  match vested_stocks with
  | [] => Some []
  | _ => option_map (sorted (fun x => parse_vest_date (fst x)))
           (aggregate_vested vested_stocks)
  end.

(** ** The vocabulary of the further properties *)

(** A record of the vested-stocks section: its two fields, the date checked. *)
Definition vested_record_ok (r : record) : Prop :=
  exists vest_date shares,
    r = [("Vest Date", vest_date); ("Shares", shares)]
    /\ vest_date_ok vest_date = true.

(** A record of the ESPP section: its two fields, the period checked. *)
Definition espp_record_ok (r : record) : Prop :=
  exists off_period purchased_shares,
    r = [("Off Period", off_period); ("Purchased Shares", purchased_shares)]
    /\ off_period_ok off_period purchased_shares = true.

(** Three word characters, a dash, two digits, a dash, four digits. *)
Definition date_shaped (s : string) : bool :=
  match s with
  | String w1 (String w2 (String w3 (String "-" (String d1 (String d2
      (String "-" (String y1 (String y2 (String y3 (String y4 EmptyString)))))))))) =>
      PyRe.word w1 && PyRe.word w2 && PyRe.word w3
      && PyRe.digit d1 && PyRe.digit d2
      && PyRe.digit y1 && PyRe.digit y2 && PyRe.digit y3 && PyRe.digit y4
  | _ => false
  end.

(** Digits and dots, at least one. *)
Definition quantity_shaped (s : string) : bool :=
  negb (PyStr.is_empty s)
  && PyStr.forallb_str (fun a => PyRe.digit a || PyRe.lit "." a) s.

(** A record of a sale: its two fields, with the shapes of the pattern. *)
Definition sale_record_ok (r : record) : Prop :=
  exists date_sold quantity,
    r = [("Date sold or transferred", date_sold); ("Quantity", quantity)]
    /\ date_shaped date_sold = true /\ quantity_shaped quantity = true.

(** The pages whose text is extracted and not empty. *)
Fixpoint page_texts (pages : list (option string)) : list string :=
  match pages with
  | [] => []
  | None :: rest => page_texts rest
  | Some text :: rest =>
      if PyStr.is_empty text then page_texts rest else text :: page_texts rest
  end.

(** The dates in the order in which they first occur. *)
Fixpoint first_occurrences (dates : list string) : list string :=
  match dates with
  | [] => []
  | d :: rest => d :: filter (fun x => negb (String.eqb x d)) (first_occurrences rest)
  end.

(** The vested records whose shares are a number once the separators are
    taken out, as date and quantity. *)
Definition parsed_vested (vested_stocks : list record) : list (string * PyFloat.float) :=
  flat_map
    (fun entry =>
       match PyFloat.of_string (clean_shares (dict_get entry "Shares" "")) with
       | Some shares_float => [(dict_get entry "Vest Date" "", shares_float)]
       | None => []
       end) vested_stocks.

(** A repetition, not a group mark. *)
Definition is_rep (it : PyRe.item) : bool :=
  match it with PyRe.Rep _ _ _ => true | _ => false end.

(** [pre] is made of one run of characters for each repetition of [body],
    each run of its class and within its bounds. *)
Fixpoint fits (body : list PyRe.item) (pre : string) : Prop :=
  match body with
  | [] => pre = EmptyString
  | PyRe.Rep cls lo hi :: body' =>
      exists a b : string,
        pre = (a ++ b)%string
        /\ PyStr.forallb_str cls a = true
        /\ (lo <= String.length a)%nat
        /\ match hi with Some h => (String.length a <= h)%nat | None => True end
        /\ fits body' b
  | _ => False
  end.

(** Two vested rows, the later one first. *)
Definition vested_two_dates : string :=
  "Vested Stocks 2024" ++ nl ++
  "01.03.2022 AB124 15.09.2024 10.00 1500.00 25" ++ nl ++
  "01.03.2022 AB123 15.03.2024 10.00 1500.00 150".

(** The purchased shares that are numbers once the separators are taken
    out. *)
Definition purchased_quantities (espp_data : list record) : list PyFloat.float :=
  flat_map
    (fun entry =>
       match PyFloat.of_string (clean_shares (dict_get entry "Purchased Shares" "")) with
       | Some shares => [shares]
       | None => []
       end) espp_data.

(** * Properties *)

(** ** Scenario A: one vested row *)

Example scenario_A_records :
  extract_vested_stocks_from_text scenario_A
  = [[("Vest Date", "15.03.2024"); ("Shares", "150")]].
Proof. vm_compute. reflexivity. Qed.

(** C2. The four lines of scenario A give exactly one record, the vest date
    15.03.2024 with 150 shares, and the aggregation of that record by vest
    date is the single entry 15.03.2024 with the float 150.0. *)
Theorem scenario_A_vested :
  extract_vested_stocks_from_text scenario_A
  = [[("Vest Date", "15.03.2024"); ("Shares", "150")]]
  /\ aggregate_vested (extract_vested_stocks_from_text scenario_A)
     = Some [("15.03.2024", PyFloat.of_int 150)]
  /\ PyFloat.of_int 150 = S754_finite false (150 * 2 ^ 45) (-45).
Proof. split; [|split]; vm_compute; reflexivity. Qed.

(** ** Scenario C: one sale row *)

Example scenario_C_records :
  extract_transactions_from_text scenario_C
  = [[("Date sold or transferred", "Jan-16-2024"); ("Quantity", "3.0000")]].
Proof. vm_compute. reflexivity. Qed.

Lemma transactions_of_lines_flat_map (lines : list string) :
  forall transactions,
    transactions_of_lines transactions lines
    = transactions ++ flat_map transaction_of_line lines.
Proof.
  induction lines as [|line rest IH]; intros transactions; simpl.
  - now rewrite app_nil_r.
  - unfold transaction_of_line at 1.
    destruct (PyRe.search pattern line) as [m|]; rewrite IH; simpl.
    + now rewrite <- app_assoc.
    + reflexivity.
Qed.

(** C8. Whatever the text around it, the sale line of scenario C gives the
    record with the first date, Jan-16-2024, and the quantity 3.0000. *)
Theorem scenario_C_sale (text : string) :
  In scenario_C (PyStr.split_char "010" text) ->
  In [("Date sold or transferred", "Jan-16-2024"); ("Quantity", "3.0000")]
     (extract_transactions_from_text text).
Proof.
  intros Hin. unfold extract_transactions_from_text.
  rewrite transactions_of_lines_flat_map. simpl.
  apply in_flat_map. exists scenario_C. split; [exact Hin|].
  vm_compute. left. reflexivity.
Qed.

Lemma scenario_C_sale_witness :
  In [("Date sold or transferred", "Jan-16-2024"); ("Quantity", "3.0000")]
     (extract_transactions_from_text
        ("Sell date Acquired Quantity Cost Proceeds" ++ nl ++ scenario_C ++ nl ++ "Total")).
Proof.
  apply (scenario_C_sale
           ("Sell date Acquired Quantity Cost Proceeds" ++ nl ++ scenario_C ++ nl ++ "Total")).
  vm_compute. right. left. reflexivity.
Defined.

(** ** The summary *)

Lemma ge_zero_nonnegative (x : PyFloat.float) :
  PyFloat.ge x (PyFloat.of_int 0) = true <-> nonnegative x.
Proof.
  unfold nonnegative, PyFloat.ge, SFleb, PyFloat.zero.
  change (PyFloat.of_int 0) with (S754_zero false).
  destruct x as [s|[|]| |[|] m e]; simpl; split; intros H;
    try discriminate; try reflexivity; auto;
    destruct H as [H|H]; discriminate.
Qed.

Lemma ge_zero_negative (x : PyFloat.float) :
  negative x -> PyFloat.ge x (PyFloat.of_int 0) = false.
Proof.
  unfold negative, PyFloat.ge, SFleb, PyFloat.zero.
  change (PyFloat.of_int 0) with (S754_zero false).
  destruct x as [s|[|]| |[|] m e]; simpl; intros H;
    try discriminate; reflexivity.
Qed.

(** C3. The net position is (vested + purchased) - sold.  When it is not
    negative the line is labelled remaining and shows the net position; when
    it is negative the line is labelled oversold and shows its absolute
    value.  100.0, 20.0 and 90.0 leave 30.0 remaining; 50, 0 and 90 give
    40.0 oversold. *)
Theorem display_summary_net (total_vested total_purchased total_sold : PyFloat.float) :
  let net := PyFloat.sub (PyFloat.add total_vested total_purchased) total_sold in
  (nonnegative net ->
   display_summary total_vested total_purchased total_sold = (Remaining, net))
  /\ (negative net ->
      display_summary total_vested total_purchased total_sold
      = (Oversold, PyFloat.abs net))
  /\ (forall v p s,
        PyFloat.of_string "100.0" = Some v -> PyFloat.of_string "20.0" = Some p ->
        PyFloat.of_string "90.0" = Some s ->
        display_summary v p s = (Remaining, PyFloat.of_int 30))
  /\ display_summary (PyFloat.of_int 50) (PyFloat.of_int 0) (PyFloat.of_int 90)
     = (Oversold, PyFloat.of_int 40).
Proof.
  intros net. unfold display_summary. fold net.
  split; [|split; [|split]].
  - intros H. apply ge_zero_nonnegative in H. now rewrite H.
  - intros H. apply ge_zero_negative in H. now rewrite H.
  - intros v p s Hv Hp Hs. vm_compute in Hv, Hp, Hs.
    injection Hv as <-. injection Hp as <-. injection Hs as <-.
    vm_compute. reflexivity.
  - vm_compute. reflexivity.
Qed.

Lemma display_summary_net_witness :
  display_summary (PyFloat.of_int 100) (PyFloat.of_int 20) (PyFloat.of_int 90)
  = (Remaining, PyFloat.of_int 30)
  /\ display_summary (PyFloat.of_int 50) (PyFloat.of_int 0) (PyFloat.of_int 90)
     = (Oversold, PyFloat.abs (PyFloat.of_int (-40))).
Proof.
  split.
  - apply (proj1 (display_summary_net (PyFloat.of_int 100) (PyFloat.of_int 20)
                                       (PyFloat.of_int 90))).
    right. vm_compute. reflexivity.
  - apply (proj1 (proj2 (display_summary_net (PyFloat.of_int 50) (PyFloat.of_int 0)
                                              (PyFloat.of_int 90)))).
    vm_compute. reflexivity.
Defined.

(** ** Failures of the text extraction *)

Lemma table_of_pages_fails (e : pyexc) (read : list (option string)) (rest : list page) :
  forall all_transactions,
    table_of_pages all_transactions (map inr read ++ inl e :: rest) = inl e.
Proof.
  induction read as [|[text|] read IH]; intros all_transactions; simpl.
  - reflexivity.
  - destruct (PyStr.is_empty text); apply IH.
  - apply IH.
Qed.

Lemma text_of_pages_fails (e : pyexc) (read : list (option string)) (rest : list page) :
  forall all_text,
    text_of_pages all_text (map inr read ++ inl e :: rest) = inl e.
Proof.
  induction read as [|[text|] read IH]; intros all_text; simpl.
  - reflexivity.
  - destruct (PyStr.is_empty text); apply IH.
  - apply IH.
Qed.

Lemma extract_table_from_pdf_fails (e : pyexc) (opening : pdf) :
  fails_with e opening -> extract_table_from_pdf opening = inl e.
Proof.
  intros [|read rest]; simpl.
  - reflexivity.
  - now rewrite table_of_pages_fails.
Qed.

Lemma extract_vested_data_fails (e : pyexc) (opening : pdf) :
  fails_with e opening -> extract_vested_data opening = inl e.
Proof.
  intros [|read rest]; simpl.
  - reflexivity.
  - now rewrite text_of_pages_fails.
Qed.

(** C4, as the code has it.  A failure of [pdfplumber] on a file that exists
    leaves [extract_table_from_pdf] and [extract_vested_data] unmodified, but
    [read_sold_shares] and [read_vested_data] catch every [Exception]: they
    return the totals 0.0, and raise only what is not an [Exception]. *)
Theorem extraction_failure_is_caught (e : pyexc) (opening : pdf) :
  fails_with e opening ->
  extract_table_from_pdf opening = inl e
  /\ extract_vested_data opening = inl e
  /\ read_sold_shares true opening = seen_by_caller PyFloat.zero e
  /\ read_vested_data true opening = seen_by_caller (PyFloat.zero, PyFloat.zero) e.
Proof.
  intros H. unfold read_sold_shares, read_vested_data.
  rewrite (extract_table_from_pdf_fails e opening H).
  rewrite (extract_vested_data_fails e opening H).
  destruct e; simpl; repeat split; reflexivity.
Qed.

Lemma extraction_failure_is_caught_witness :
  read_sold_shares true (inr [inr (Some scenario_C); inl (Exc "no text layer")])
  = inr PyFloat.zero.
Proof.
  apply (extraction_failure_is_caught (Exc "no text layer")
           (inr [inr (Some scenario_C); inl (Exc "no text layer")])).
  exact (fails_page (Exc "no text layer") [Some scenario_C] []).
Defined.

(** C4 as stated fails: the exception raised when the file is opened does
    not leave [read_sold_shares] nor [read_vested_data]. *)
Lemma extraction_failure_not_propagated :
  read_sold_shares true (inl (Exc "not a PDF")) <> inl (Exc "not a PDF")
  /\ read_vested_data true (inl (Exc "not a PDF")) <> inl (Exc "not a PDF").
Proof. split; vm_compute; discriminate. Qed.

(** ** Facts about strings *)

Section StringFacts.
Import PyStr.



(** The first character of a substring is a character of the string. *)
Lemma forallb_str_contains (p : ascii -> bool) (c : ascii) (sub : string) :
  forall s, forallb_str p s = true -> contains (String c sub) s = true -> p c = true.
Proof.
  induction s as [|a s IH]; simpl; intros Hall H.
  - discriminate.
  - apply andb_true_iff in Hall. destruct Hall as [Ha Hs].
    apply orb_true_iff in H. destruct H as [H|H].
    + destruct (ascii_dec c a) as [->|]; [exact Ha|discriminate].
    + now apply IH.
Qed.

Lemma forallb_str_impl (p q : ascii -> bool) :
  (forall a, p a = true -> q a = true) ->
  forall s, forallb_str p s = true -> forallb_str q s = true.
Proof.
  intros Hpq. induction s as [|a s IH]; simpl; intros H.
  - reflexivity.
  - apply andb_true_iff in H. destruct H as [Ha Hs].
    now rewrite (Hpq a Ha), IH.
Qed.

Lemma forallb_str_remove_char (p : ascii -> bool) (c : ascii) :
  forall s, forallb_str p (remove_char c s) = true ->
            forallb_str (fun a => p a || Ascii.eqb a c) s = true.
Proof.
  induction s as [|a s IH]; simpl; intros H.
  - reflexivity.
  - destruct (Ascii.eqb a c); simpl in H.
    + rewrite orb_true_r. simpl. now apply IH.
    + apply andb_true_iff in H. destruct H as [Ha Hs].
      rewrite Ha. simpl. now apply IH.
Qed.

Lemma forallb_str_lstrip (p : ascii -> bool) :
  forall s, forallb_str p (lstrip s) = true ->
            forallb_str (fun a => p a || isspace_char a) s = true.
Proof.
  induction s as [|a s IH]; simpl; intros H.
  - reflexivity.
  - destruct (isspace_char a) eqn:Ha.
    + rewrite orb_true_r. simpl. now apply IH.
    + simpl in H. apply andb_true_iff in H. destruct H as [Hp Hs].
      rewrite Hp. simpl.
      apply (forallb_str_impl p); [|exact Hs].
      intros b Hb. now rewrite Hb.
Qed.

Lemma forallb_str_rstrip (p : ascii -> bool) :
  forall s, forallb_str p (rstrip s) = true ->
            forallb_str (fun a => p a || isspace_char a) s = true.
Proof.
  induction s as [|a s IH]; simpl; intros H.
  - reflexivity.
  - destruct (is_empty (rstrip s) && isspace_char a) eqn:E.
    + apply andb_true_iff in E. destruct E as [Er Ea].
      rewrite Ea, orb_true_r. simpl. apply IH.
      destruct (rstrip s); [reflexivity|discriminate].
    + simpl in H. apply andb_true_iff in H. destruct H as [Hp Hs].
      rewrite Hp. simpl. now apply IH.
Qed.

Lemma forallb_str_strip (p : ascii -> bool) (s : string) :
  forallb_str p (strip s) = true ->
  forallb_str (fun a => p a || isspace_char a) s = true.
Proof.
  intros H. apply forallb_str_rstrip in H. apply forallb_str_lstrip in H.
  apply (forallb_str_impl _ _ (fun a Ha => Ha)) in H.
  revert H. apply forallb_str_impl.
  intros a Ha. apply orb_true_iff in Ha. destruct Ha as [Ha|Ha].
  - exact Ha.
  - now rewrite Ha, orb_true_r.
Qed.

Lemma remove_char_not_empty (c : ascii) (s : string) :
  is_empty (remove_char c s) = false -> is_empty s = false.
Proof. destruct s; [intros H; exact H|reflexivity]. Qed.

Lemma split_char_not_nil (c : ascii) (s : string) : split_char c s <> [].
Proof.
  destruct s as [|a s]; simpl; [discriminate|].
  destruct (Ascii.eqb a c); [discriminate|].
  destruct (split_char c s); discriminate.
Qed.

(** [s.split(c)] of a text made of two parts around a [c]. *)
Lemma split_char_app (c : ascii) (s2 : string) :
  forall s1, split_char c (s1 ++ String c s2) = split_char c s1 ++ split_char c s2.
Proof.
  induction s1 as [|a s1 IH]; simpl.
  - now rewrite Ascii.eqb_refl.
  - destruct (Ascii.eqb a c).
    + now rewrite IH.
    + rewrite IH. pose proof (split_char_not_nil c s1) as Hne.
      destruct (split_char c s1); [now destruct Hne|reflexivity].
Qed.

End StringFacts.

(** ** The scan of the vested-stocks section *)

Section VestedScan.
Import PyStr.

(** The count of header lines is kept for diagnostics only. *)
Lemma vested_scan_count (lines : list string) :
  forall b h h' acc, vested_scan b h acc lines = vested_scan b h' acc lines.
Proof.
  induction lines as [|x lines IH]; intros b h h' acc; cbn [vested_scan].
  - reflexivity.
  - destruct (vested_start x); [apply IH|].
    destruct (contains "ESPP" x); [reflexivity|].
    destruct (b && negb (is_empty (strip x))); [|apply IH].
    destruct (vested_header x); [apply IH|].
    destruct (vested_total_line x); [apply IH|].
    destruct (6 <=? List.length (split_ws x))%nat; [|apply IH].
    destruct (vested_row (split_ws x)); apply IH.
Qed.

(** The scan stops at a line with "ESPP" that does not open the section:
    that line and the lines after it add nothing. *)
Lemma vested_scan_stops (l : string) (post : list string) :
  vested_start l = false -> contains "ESPP" l = true ->
  forall pre b h acc,
    vested_scan b h acc (pre ++ l :: post) = vested_scan b h acc pre.
Proof.
  intros Hstart Hespp.
  induction pre as [|x pre IH]; intros b h acc; cbn [vested_scan app].
  - now rewrite Hstart, Hespp.
  - destruct (vested_start x); [apply IH|].
    destruct (contains "ESPP" x); [reflexivity|].
    destruct (b && negb (is_empty (strip x))); [|apply IH].
    destruct (vested_header x); [apply IH|].
    destruct (vested_total_line x); [apply IH|].
    destruct (6 <=? List.length (split_ws x))%nat; [|apply IH].
    destruct (vested_row (split_ws x)); apply IH.
Qed.

(** Before the section has started, lines add nothing. *)
Lemma vested_scan_idle (pre : list string) :
  (forall x, In x pre -> vested_start x = false) ->
  forall h acc, vested_scan false h acc pre = acc.
Proof.
  induction pre as [|x pre IH]; intros Hpre h acc; cbn [vested_scan].
  - reflexivity.
  - rewrite (Hpre x (or_introl eq_refl)).
    destruct (contains "ESPP" x); [reflexivity|].
    cbn [andb]. apply IH. intros y Hy. apply Hpre. now right.
Qed.

(** Such a line can be taken out of the text where the scan is in that
    state. *)
Lemma vested_scan_insert (l : string) (post : list string) :
  forall pre b h acc,
    skips (b || existsb vested_start pre) l ->
    vested_scan b h acc (pre ++ l :: post) = vested_scan b h acc (pre ++ post).
Proof.
  induction pre as [|x pre IH]; intros b h acc Hskip.
  - cbn [app]. cbn [existsb] in Hskip. rewrite orb_false_r in Hskip. apply Hskip.
  - cbn [vested_scan app]. cbn [existsb] in Hskip.
    destruct (vested_start x) eqn:Hx.
    { apply IH. now rewrite orb_true_r in Hskip. }
    cbn [orb] in Hskip.
    destruct (contains "ESPP" x); [reflexivity|].
    destruct (b && negb (is_empty (strip x))); [|now apply IH].
    destruct (vested_header x); [now apply IH|].
    destruct (vested_total_line x); [now apply IH|].
    destruct (6 <=? List.length (split_ws x))%nat; [|now apply IH].
    destruct (vested_row (split_ws x)); now apply IH.
Qed.

Lemma vested_total_line_chars (l : string) :
  vested_total_line l = true ->
  forallb_str total_char l = true /\ is_empty (strip l) = false.
Proof.
  unfold vested_total_line, isdigit. intros H.
  apply andb_true_iff in H. destruct H as [Hne Hall]. split.
  - apply forallb_str_remove_char in Hall.
    apply forallb_str_remove_char in Hall.
    apply forallb_str_remove_char in Hall.
    apply forallb_str_strip in Hall.
    revert Hall. apply forallb_str_impl. intros a Ha. exact Ha.
  - apply negb_true_iff in Hne.
    now repeat apply remove_char_not_empty in Hne.
Qed.

(** A total line has no letter, so it is no marker and no header. *)
Lemma vested_total_line_plain (l : string) :
  vested_total_line l = true ->
  vested_start l = false /\ contains "ESPP" l = false /\ vested_header l = false.
Proof.
  intros H. apply vested_total_line_chars in H. destruct H as [Hall _].
  assert (Hno : forall c sub, total_char c = false -> contains (String c sub) l = false).
  { intros c sub Hc. destruct (contains (String c sub) l) eqn:E; [|reflexivity].
    now rewrite (forallb_str_contains total_char c sub l Hall E) in Hc. }
  unfold vested_start, vested_header.
  rewrite (Hno "V"%char "ested Stocks" eq_refl).
  rewrite (Hno "E"%char "SPP" eq_refl).
  rewrite (Hno "A"%char "ward" eq_refl).
  rewrite (Hno "D"%char "ate Date Price" eq_refl).
  repeat split.
Qed.

Lemma total_line_skips (l : string) (b : bool) :
  vested_total_line l = true -> skips b l.
Proof.
  intros H h acc rest.
  destruct (vested_total_line_plain l H) as (Hs & He & Hh).
  cbn [vested_scan]. rewrite Hs, He, Hh, H.
  destruct (b && negb (is_empty (strip l))); reflexivity.
Qed.

(** A row of six fields or more has the two fields that are read: the
    [except] clause is never entered. *)
Lemma vested_row_no_error (parts : list string) :
  (6 <= List.length parts)%nat -> vested_row parts <> None.
Proof.
  intros H. unfold vested_row.
  destruct (nth_error parts 2) eqn:E2.
  - destruct (nth_error parts 5) eqn:E5.
    + destruct (vest_date_ok s); discriminate.
    + apply nth_error_None in E5. lia.
  - apply nth_error_None in E2. lia.
Qed.

Lemma bad_row_skips (l : string) :
  contains "ESPP" l = false -> bad_row l -> skips true l.
Proof.
  intros He Hbad h acc rest. cbn [vested_scan]. rewrite He.
  destruct (vested_start l); [reflexivity|].
  destruct (true && negb (is_empty (strip l))); [|reflexivity].
  destruct (vested_header l); [apply vested_scan_count|].
  destruct (vested_total_line l); [reflexivity|].
  destruct (6 <=? List.length (split_ws l))%nat eqn:Hlen; [|reflexivity].
  destruct Hbad as [Hshort|(d & Hd & Hok)].
  - apply Nat.leb_le in Hlen. lia.
  - unfold vested_row. rewrite Hd.
    destruct (nth_error (split_ws l) 5); [|reflexivity].
    rewrite Hok. now rewrite app_nil_r.
Qed.

End VestedScan.

(** C10, as the code has it.  The scan stops at a line with "ESPP" that
    does not open the vested-stocks section, whether or not the section has
    started: the records are those of the lines before it, and there is none
    when no line before it opens the section, whatever follows.  A line that
    opens the section does so even when it has "ESPP" in it: the scan goes
    on in the section. *)
Theorem espp_before_vested_section (text : string) (pre post : list string) (l : string) :
  PyStr.split_char "010" text = pre ++ l :: post ->
  vested_start l = false ->
  PyStr.contains "ESPP" l = true ->
  extract_vested_stocks_from_text text = vested_records pre
  /\ ((forall x, In x pre -> vested_start x = false) ->
      extract_vested_stocks_from_text text = [])
  /\ (forall start b h acc rest,
        vested_start start = true ->
        vested_scan b h acc (start :: rest) = vested_scan true h acc rest).
Proof.
  intros Hsplit Hl Hespp.
  assert (H : extract_vested_stocks_from_text text = vested_records pre).
  { unfold extract_vested_stocks_from_text, vested_records.
    rewrite Hsplit. now apply vested_scan_stops. }
  split; [exact H|]. split.
  - intros Hpre. rewrite H. unfold vested_records. now apply vested_scan_idle.
  - intros start b h acc rest Hstart. cbn [vested_scan]. now rewrite Hstart.
Qed.

Lemma espp_before_vested_section_witness :
  extract_vested_stocks_from_text
    ("Stock plans: RSU and ESPP" ++ nl ++ scenario_A) = [].
Proof.
  apply (proj1 (proj2 (espp_before_vested_section
                         ("Stock plans: RSU and ESPP" ++ nl ++ scenario_A)
                         [] (PyStr.split_char "010" scenario_A)
                         "Stock plans: RSU and ESPP"
                         ltac:(vm_compute; reflexivity)
                         ltac:(vm_compute; reflexivity)
                         ltac:(vm_compute; reflexivity)))).
  intros x [].
Defined.

(** C10 as stated fails: the first line with "ESPP" opens the section, the
    scan does not stop at it and the row after it gives a record. *)
Lemma espp_in_start_line_does_not_stop :
  PyStr.contains "ESPP" "Vested Stocks 2024 (without ESPP)" = true
  /\ extract_vested_stocks_from_text
       ("Vested Stocks 2024 (without ESPP)" ++ nl ++
        "01.03.2022 AB123 15.03.2024 10.00 1500.00 150")
     = [[("Vest Date", "15.03.2024"); ("Shares", "150")]].
Proof. split; vm_compute; reflexivity. Qed.

(** ** The scan of the ESPP section *)







(** ** Noise and bad rows in the vested-stocks section *)

(** C9, as the code has it.  In the section, a line that is not blank and is
    left with digits only once its dots, apostrophes and blanks are removed
    is passed over: it adds no record and the section goes on.  Commas are
    not removed.  Such a line can be taken out of the text without changing
    the records. *)
Theorem total_line_is_noise (l : string) :
  PyStr.isdigit
    (PyStr.remove_char " " (PyStr.remove_char "'" (PyStr.remove_char "." (PyStr.strip l))))
  = true ->
  PyStr.is_empty (PyStr.strip l) = false
  /\ (forall h acc rest,
        vested_scan true h acc (l :: rest) = vested_scan true h acc rest)
  /\ (forall text text' pre post,
        PyStr.split_char "010" text = pre ++ post ->
        PyStr.split_char "010" text' = pre ++ l :: post ->
        extract_vested_stocks_from_text text' = extract_vested_stocks_from_text text).
Proof.
  intros H. change (vested_total_line l = true) in H. split; [|split].
  - now apply vested_total_line_chars.
  - exact (total_line_skips l true H).
  - intros text text' pre post Ht Ht'. unfold extract_vested_stocks_from_text.
    rewrite Ht, Ht'. apply vested_scan_insert. now apply total_line_skips.
Qed.

Lemma total_line_is_noise_witness :
  extract_vested_stocks_from_text
    ("Vested Stocks 2024" ++ nl ++ "1'500.00 150 1.2.3 4 5 6" ++ nl ++
     "01.03.2022 AB123 15.03.2024 10.00 1500.00 150")
  = extract_vested_stocks_from_text
      ("Vested Stocks 2024" ++ nl ++ "01.03.2022 AB123 15.03.2024 10.00 1500.00 150").
Proof.
  assert (Htotal : PyStr.isdigit
            (PyStr.remove_char " " (PyStr.remove_char "'"
               (PyStr.remove_char "." (PyStr.strip "1'500.00 150 1.2.3 4 5 6")))) = true)
    by (vm_compute; reflexivity).
  apply (proj2 (proj2 (total_line_is_noise "1'500.00 150 1.2.3 4 5 6" Htotal))
           _ _ ["Vested Stocks 2024"] ["01.03.2022 AB123 15.03.2024 10.00 1500.00 150"]);
    vm_compute; reflexivity.
Defined.

(** C9 as stated fails: with a comma for the thousands the line is left
    with digits only once commas, apostrophes, dots and blanks are removed,
    and yet it is read as a data row. *)
Lemma total_line_with_comma_is_a_row :
  PyStr.isdigit
    (PyStr.remove_char " " (PyStr.remove_char "."
       (PyStr.remove_char "'" (PyStr.remove_char "," "1,500.00 150 1.2.3 4 5 6"))))
  = true
  /\ extract_vested_stocks_from_text
       ("Vested Stocks 2024" ++ nl ++ "1,500.00 150 1.2.3 4 5 6")
     = [[("Vest Date", "1.2.3"); ("Shares", "6")]].
Proof. split; vm_compute; reflexivity. Qed.

(** C5, as the code has it.  In a text with a vested-stocks section, a row
    put anywhere in the section that has fewer than six fields, or whose
    third field is not three parts around dots, adds no record and leaves the
    records of the rows before and after it as they are, provided the row
    does not have the "ESPP" that ends the section.  The scan is a total
    function: nothing is raised. *)
Theorem bad_row_is_skipped (text text' : string) (pre post : list string) (l : string) :
  PyStr.split_char "010" text = pre ++ post ->
  PyStr.split_char "010" text' = pre ++ l :: post ->
  existsb vested_start pre = true ->
  PyStr.contains "ESPP" l = false ->
  bad_row l ->
  extract_vested_stocks_from_text text' = extract_vested_stocks_from_text text.
Proof.
  intros Ht Ht' Hactive Hespp Hbad. unfold extract_vested_stocks_from_text.
  rewrite Ht, Ht'. apply vested_scan_insert.
  rewrite Hactive. now apply bad_row_skips.
Qed.

Lemma bad_row_is_skipped_witness :
  extract_vested_stocks_from_text
    ("Vested Stocks 2024" ++ nl ++
     "01.03.2022 AB123 15.03.2024 10.00 1500.00 150" ++ nl ++
     "01.03.2022 AB124 15-06-2024 10.00 1500.00 75" ++ nl ++
     "01.03.2022 AB125 15.09.2024 10.00 1500.00 25")
  = extract_vested_stocks_from_text
      ("Vested Stocks 2024" ++ nl ++
       "01.03.2022 AB123 15.03.2024 10.00 1500.00 150" ++ nl ++
       "01.03.2022 AB125 15.09.2024 10.00 1500.00 25").
Proof.
  apply (bad_row_is_skipped _ _
           ["Vested Stocks 2024"; "01.03.2022 AB123 15.03.2024 10.00 1500.00 150"]
           ["01.03.2022 AB125 15.09.2024 10.00 1500.00 25"]
           "01.03.2022 AB124 15-06-2024 10.00 1500.00 75").
  - vm_compute. reflexivity.
  - vm_compute. reflexivity.
  - vm_compute. reflexivity.
  - vm_compute. reflexivity.
  - right. exists "15-06-2024". split; vm_compute; reflexivity.
Defined.

(** C5 as stated fails: a row of five fields whose award is named ESPP1
    ends the scan, and the row after it is lost. *)
Lemma bad_row_with_espp_ends_section :
  (List.length (PyStr.split_ws "01.03.2022 ESPP1 15.06.2024 10.00 1500.00") < 6)%nat
  /\ extract_vested_stocks_from_text
       ("Vested Stocks 2024" ++ nl ++
        "01.03.2022 AB123 15.03.2024 10.00 1500.00 150" ++ nl ++
        "01.03.2022 AB125 15.09.2024 10.00 1500.00 25")
     = [[("Vest Date", "15.03.2024"); ("Shares", "150")];
        [("Vest Date", "15.09.2024"); ("Shares", "25")]]
  /\ extract_vested_stocks_from_text
       ("Vested Stocks 2024" ++ nl ++
        "01.03.2022 AB123 15.03.2024 10.00 1500.00 150" ++ nl ++
        "01.03.2022 ESPP1 15.06.2024 10.00 1500.00" ++ nl ++
        "01.03.2022 AB125 15.09.2024 10.00 1500.00 25")
     = [[("Vest Date", "15.03.2024"); ("Shares", "150")]].
Proof. split; [vm_compute; lia|]. split; vm_compute; reflexivity. Qed.

(** ** The order of the report *)

Section ReportOrder.
Import PyDate.

Lemma ltb_irrefl (a : datetime) : ltb a a = false.
Proof.
  unfold ltb. rewrite !Z.ltb_irrefl, !Z.eqb_refl. reflexivity.
Qed.

Ltac order_cases :=
  unfold ltb; intros;
  repeat match goal with
         | H : context [Z.ltb ?x ?y] |- _ => destruct (Z.ltb_spec x y); cbn in H
         | H : context [Z.eqb ?x ?y] |- _ => destruct (Z.eqb_spec x y); cbn in H
         | |- context [Z.ltb ?x ?y] => destruct (Z.ltb_spec x y); cbn
         | |- context [Z.eqb ?x ?y] => destruct (Z.eqb_spec x y); cbn
         end;
  try reflexivity; try discriminate; try lia.

Lemma ltb_asym (a b : datetime) : ltb a b = true -> ltb b a = false.
Proof. order_cases. Qed.

(** When neither [a < b] nor [b < c], not [a < c] either. *)
Lemma ltb_negative_trans (a b c : datetime) :
  ltb b a = false -> ltb c b = false -> ltb c a = false.
Proof. order_cases. Qed.

Context {A : Type} (key : A -> datetime).

Lemma insert_sorted_perm (x : A) (l : list A) :
  Permutation (insert_sorted key x l) (x :: l).
Proof.
  induction l as [|y l IH]; simpl.
  - apply Permutation_refl.
  - destruct (ltb (key y) (key x)).
    + apply Permutation_trans with (y :: x :: l).
      * now apply perm_skip.
      * apply perm_swap.
    + apply Permutation_refl.
Qed.

(** Sorting keeps every entry, once. *)
Lemma sorted_perm (l : list A) : Permutation (sorted key l) l.
Proof.
  induction l as [|x l IH]; simpl.
  - apply perm_nil.
  - apply Permutation_trans with (x :: sorted key l).
    + apply insert_sorted_perm.
    + now apply perm_skip.
Qed.

Lemma insert_sorted_ordered (x : A) (l : list A) :
  StronglySorted (in_order key) l -> StronglySorted (in_order key) (insert_sorted key x l).
Proof.
  induction l as [|y l IH]; simpl; intros Hs.
  - repeat constructor.
  - apply StronglySorted_inv in Hs. destruct Hs as [Hl Hy].
    destruct (ltb (key y) (key x)) eqn:E.
    + constructor; [now apply IH|].
      apply (Permutation_Forall (Permutation_sym (insert_sorted_perm x l))).
      constructor; [|exact Hy]. now apply ltb_asym.
    + constructor; [now constructor|].
      constructor; [exact E|].
      revert Hy. apply Forall_impl. intros z Hz. unfold in_order in *.
      now apply (ltb_negative_trans (key x) (key y) (key z)).
Qed.

Lemma sorted_ordered (l : list A) : StronglySorted (in_order key) (sorted key l).
Proof.
  induction l as [|x l IH]; simpl.
  - constructor.
  - now apply insert_sorted_ordered.
Qed.

Lemma precedes_cons (a b y : A) (l : list A) :
  precedes a b l -> precedes a b (y :: l).
Proof.
  intros (l1 & l2 & l3 & ->). now exists (y :: l1), l2, l3.
Qed.

(** In an ordered list, the entry with the smaller key stands first. *)
Lemma ordered_precedes (a b : A) (l : list A) :
  StronglySorted (in_order key) l -> In a l -> In b l ->
  ltb (key a) (key b) = true -> precedes a b l.
Proof.
  intros Hs Ha Hb Hlt. induction Hs as [|y l Hl IH Hy].
  - destruct Ha.
  - destruct Ha as [->|Ha], Hb as [->|Hb].
    + now rewrite ltb_irrefl in Hlt.
    + apply in_split in Hb. destruct Hb as (m1 & m2 & ->).
      now exists [], m1, m2.
    + rewrite Forall_forall in Hy. specialize (Hy a Ha).
      unfold in_order in Hy. now rewrite Hy in Hlt.
    + apply precedes_cons. now apply IH.
Qed.

End ReportOrder.

(** The order of the table: it keeps every entry of the aggregate; of two
    entries whose keys are dates, the one with the earlier date stands
    first; an entry whose key is not a date is sorted as 1 January 1900. *)
Lemma display_results_sorted (data : list record) :
  Permutation (display_results data) (aggregate_by_date data)
  /\ forall a b,
       In a (display_results data) -> In b (display_results data) ->
       PyDate.ltb (parse_date (fst a)) (parse_date (fst b)) = true ->
       precedes a b (display_results data).
Proof.
  assert (Hrows : display_results data
                  = sorted (fun x => parse_date (fst x)) (aggregate_by_date data)).
  { destruct data; reflexivity. }
  rewrite Hrows. split; [apply sorted_perm|].
  intros a b. apply (ordered_precedes (fun x => parse_date (fst x))).
  apply sorted_ordered.
Qed.

(** C6.  The claim, and the comment of [parse_date] that a key that is not
    a date gets a very early date "to put it first", ask that such a key
    stands before every key that is a date.  The code returns 1 January 1900
    for it: on two sale rows, the first with the key Foo-99-2024, which is
    not a date, the second sold on 1 January 1800, the table shows the row of
    1800 first. *)
Lemma unparseable_key_not_first :
  PyDate.strptime "Foo-99-2024" = None
  /\ PyDate.strptime "Jan-01-1800"
     = Some {| PyDate.year := 1800; PyDate.month := 1; PyDate.day := 1 |}
  /\ display_results (extract_transactions_from_text sales_1800)
     = [("Jan-01-1800", PyFloat.of_int 1); ("Foo-99-2024", PyFloat.of_int 2)]
  /\ ~ precedes ("Foo-99-2024", PyFloat.of_int 2) ("Jan-01-1800", PyFloat.of_int 1)
         (display_results (extract_transactions_from_text sales_1800)).
Proof.
  assert (Hrows : display_results (extract_transactions_from_text sales_1800)
                  = [("Jan-01-1800", PyFloat.of_int 1); ("Foo-99-2024", PyFloat.of_int 2)])
    by (vm_compute; reflexivity).
  split; [vm_compute; reflexivity|]. split; [vm_compute; reflexivity|].
  split; [exact Hrows|]. rewrite Hrows.
  intros (l1 & l2 & l3 & H).
  destruct l1 as [|x [|y l1]]; cbn in H.
  - injection H as H _. discriminate H.
  - injection H as _ H. destruct l2; cbn in H; [discriminate H|].
    destruct l2; discriminate H.
  - injection H as _ _ H. destruct l1; discriminate H.
Qed.

(** ** What the aggregate holds *)

Section AggregateFacts.
Import PyFloat.

Lemma aggregate_loop_parsed (data : list record) :
  forall acc, aggregate_loop acc data = add_all acc (parsed data).
Proof.
  induction data as [|t data IH]; intros acc; simpl.
  - reflexivity.
  - destruct (of_string (dict_get t "Quantity" "0")); simpl; apply IH.
Qed.

Lemma dict_lookup_update (acc : aggregate) (k d : string) (f : float -> float) :
  dict_lookup (dict_update acc k f) d
  = if String.eqb k d then option_map f (dict_lookup acc k) else dict_lookup acc d.
Proof.
  induction acc as [|[k' v] acc IH]; simpl.
  - now destruct (String.eqb k d).
  - destruct (String.eqb k' k) eqn:Ek; simpl.
    + apply String.eqb_eq in Ek. subst k'.
      now destruct (String.eqb k d).
    + destruct (String.eqb k' d) eqn:Ed.
      * apply String.eqb_eq in Ed. subst k'.
        rewrite String.eqb_sym in Ek. now rewrite Ek.
      * exact IH.
Qed.

Lemma dict_lookup_app (acc : aggregate) (k d : string) (q : float) :
  dict_lookup (acc ++ [(k, q)]) d
  = match dict_lookup acc d with
    | Some v => Some v
    | None => if String.eqb k d then Some q else None
    end.
Proof.
  induction acc as [|[k' v] acc IH]; simpl.
  - reflexivity.
  - now destruct (String.eqb k' d).
Qed.

Lemma dict_lookup_add_quantity (acc : aggregate) (k d : string) (q : float) :
  dict_lookup (add_quantity acc k q) d
  = if String.eqb k d
    then Some match dict_lookup acc k with Some v => add v q | None => q end
    else dict_lookup acc d.
Proof.
  unfold add_quantity, dict_mem.
  destruct (dict_lookup acc k) as [v|] eqn:Ek.
  - rewrite dict_lookup_update, Ek. reflexivity.
  - rewrite dict_lookup_app. destruct (String.eqb k d) eqn:E.
    + apply String.eqb_eq in E. subst d. now rewrite Ek.
    + now destruct (dict_lookup acc d).
Qed.

Lemma add_all_lookup (ps : list (string * float)) (d : string) :
  forall acc,
    dict_lookup (add_all acc ps) d = sum_onto (dict_lookup acc d) (quantities_of d ps).
Proof.
  induction ps as [|[k q] ps IH]; intros acc; cbn [add_all fold_left fst snd].
  - unfold quantities_of. simpl. now destruct (dict_lookup acc d).
  - fold (add_all (add_quantity acc k q) ps). rewrite IH, dict_lookup_add_quantity.
    unfold quantities_of. cbn [filter fst]. destruct (String.eqb k d) eqn:E.
    + apply String.eqb_eq in E. subst d. cbn [map snd].
      destruct (dict_lookup acc k); reflexivity.
    + reflexivity.
Qed.

Lemma dict_lookup_none (acc : aggregate) (k : string) :
  dict_lookup acc k = None -> ~ In k (map fst acc).
Proof.
  induction acc as [|[k' v] acc IH]; simpl; intros H.
  - intros [].
  - destruct (String.eqb k' k) eqn:E; [discriminate|].
    apply String.eqb_neq in E. intros [Hk|Hk]; [contradiction|now apply IH].
Qed.

Lemma dict_update_keys (acc : aggregate) (k : string) (f : float -> float) :
  map fst (dict_update acc k f) = map fst acc.
Proof.
  induction acc as [|[k' v] acc IH]; simpl.
  - reflexivity.
  - destruct (String.eqb k' k); simpl; [reflexivity|now rewrite IH].
Qed.

Lemma add_quantity_nodup (acc : aggregate) (k : string) (q : float) :
  NoDup (map fst acc) -> NoDup (map fst (add_quantity acc k q)).
Proof.
  intros H. unfold add_quantity, dict_mem.
  destruct (dict_lookup acc k) eqn:Ek.
  - now rewrite dict_update_keys.
  - rewrite map_app. simpl. apply NoDup_app; try assumption.
    + repeat constructor. intros [].
    + intros x Hx [<-|[]]. now apply (dict_lookup_none acc k).
Qed.

Lemma add_all_nodup (ps : list (string * float)) :
  forall acc, NoDup (map fst acc) -> NoDup (map fst (add_all acc ps)).
Proof.
  induction ps as [|[k q] ps IH]; intros acc H; cbn [add_all fold_left fst snd].
  - exact H.
  - apply IH. now apply add_quantity_nodup.
Qed.

End AggregateFacts.

(** C1, as the code has it.  The mapping has one entry for each date, and
    the quantity of a date is the binary64 sum, taken in the order of the
    records, of the quantities of exactly the records with that date whose
    quantity is a number; a date without such a record has no entry, and a
    record whose quantity is not a number adds to no entry. *)
Theorem aggregate_by_date_sums (data : list record) :
  NoDup (map fst (aggregate_by_date data))
  /\ forall date,
       dict_lookup (aggregate_by_date data) date
       = sum_in_order (quantities_of date (parsed data)).
Proof.
  unfold aggregate_by_date. rewrite aggregate_loop_parsed. split.
  - apply add_all_nodup. constructor.
  - intros date. now rewrite add_all_lookup.
Qed.

(** C1 as stated fails: every quantity of the three rows is a number, the
    quantities of the mapping add up to 10000000000000002 and those of the
    records to 10000000000000000. *)
Lemma aggregate_total_differs :
  parsed (extract_transactions_from_text sales_rounding)
  = [("Jan-16-2024", PyFloat.of_int 1);
     ("Jan-17-2024", PyFloat.of_int 10000000000000000);
     ("Jan-16-2024", PyFloat.of_int 1)]
  /\ total_of (map snd (aggregate_by_date (extract_transactions_from_text sales_rounding)))
     = PyFloat.of_int 10000000000000002
  /\ sum_parsed (fun t => dict_get t "Quantity" "0") PyFloat.zero
       (extract_transactions_from_text sales_rounding)
     = PyFloat.of_int 10000000000000000
  /\ total_of (map snd (aggregate_by_date (extract_transactions_from_text sales_rounding)))
     <> sum_parsed (fun t => dict_get t "Quantity" "0") PyFloat.zero
          (extract_transactions_from_text sales_rounding).
Proof.
  split; [vm_compute; reflexivity|]. split; [vm_compute; reflexivity|].
  split; [vm_compute; reflexivity|]. vm_compute. discriminate.
Qed.

(** * Further properties *)

(** ** What the scans leave out *)

(** X1. A text none of whose lines opens the vested-stocks section gives no
    vested-stocks record, whatever rows it holds. *)
Theorem vested_needs_start (text : string) :
  (forall x, In x (PyStr.split_char "010" text) -> vested_start x = false) ->
  extract_vested_stocks_from_text text = [].
Proof.
  intros H. unfold extract_vested_stocks_from_text. now apply vested_scan_idle.
Qed.

Lemma vested_needs_start_witness :
  extract_vested_stocks_from_text
    ("Vested Stocks 2023" ++ nl ++ "01.03.2022 AB123 15.03.2024 10.00 1500.00 150") = [].
Proof.
  apply (vested_needs_start
           ("Vested Stocks 2023" ++ nl ++ "01.03.2022 AB123 15.03.2024 10.00 1500.00 150")).
  intros x Hx. vm_compute in Hx.
  destruct Hx as [<-|[<-|[]]]; vm_compute; reflexivity.
Defined.

Lemma vested_scan_prefix (pre rest : list string) :
  (forall x, In x pre -> vested_start x = false /\ PyStr.contains "ESPP" x = false) ->
  forall h acc, vested_scan false h acc (pre ++ rest) = vested_scan false h acc rest.
Proof.
  induction pre as [|x pre IH]; intros Hpre h acc; cbn [vested_scan app].
  - reflexivity.
  - destruct (Hpre x (or_introl eq_refl)) as [Hs He]. rewrite Hs, He.
    cbn [andb]. apply IH. intros y Hy. apply Hpre. now right.
Qed.

(** X2. What stands before the first line that opens the vested-stocks
    section is ignored, as long as it has no "ESPP": the records are those of
    the lines from that line on. *)
Theorem vested_ignores_preamble (text : string) (pre rest : list string) :
  PyStr.split_char "010" text = pre ++ rest ->
  (forall x, In x pre -> vested_start x = false /\ PyStr.contains "ESPP" x = false) ->
  extract_vested_stocks_from_text text = vested_records rest.
Proof.
  intros Hsplit Hpre. unfold extract_vested_stocks_from_text, vested_records.
  rewrite Hsplit. now apply vested_scan_prefix.
Qed.

Lemma vested_ignores_preamble_witness :
  extract_vested_stocks_from_text
    ("01.01.2022 ZZ999 01.01.2023 1.00 2.00 3" ++ nl ++ scenario_A)
  = vested_records (PyStr.split_char "010" scenario_A).
Proof.
  apply (vested_ignores_preamble _ ["01.01.2022 ZZ999 01.01.2023 1.00 2.00 3"]).
  - vm_compute. reflexivity.
  - intros x [<-|[]]. split; vm_compute; reflexivity.
Defined.

Lemma espp_scan_prefix (pre rest : list string) :
  (forall x, In x pre -> espp_start x = false) ->
  forall h acc, espp_scan false h acc (pre ++ rest) = espp_scan false h acc rest.
Proof.
  induction pre as [|x pre IH]; intros Hpre h acc; cbn [espp_scan app].
  - reflexivity.
  - rewrite (Hpre x (or_introl eq_refl)). cbn [andb].
    apply IH. intros y Hy. apply Hpre. now right.
Qed.

(** X3. What stands before the first line that opens the ESPP section is
    ignored, lines with "Page" or "Total amount" included: the records are
    those of the lines from that line on, and there is none when no line
    opens the section. *)
Theorem espp_ignores_preamble (text : string) (pre rest : list string) :
  PyStr.split_char "010" text = pre ++ rest ->
  (forall x, In x pre -> espp_start x = false) ->
  extract_espp_from_text text = espp_records rest
  /\ (rest = [] -> extract_espp_from_text text = []).
Proof.
  intros Hsplit Hpre.
  assert (H : extract_espp_from_text text = espp_records rest).
  { unfold extract_espp_from_text, espp_records.
    rewrite Hsplit. now apply espp_scan_prefix. }
  split; [exact H|]. intros ->. exact H.
Qed.

Lemma espp_ignores_preamble_witness :
  extract_espp_from_text
    ("Page 1 of 2" ++ nl ++ "ESPP (Employee Stock Purchase Plan)" ++ nl ++ "202401 12.5 40.00 34.00")
  = espp_records ["ESPP (Employee Stock Purchase Plan)"; "202401 12.5 40.00 34.00"].
Proof.
  apply (espp_ignores_preamble _ ["Page 1 of 2"]).
  - vm_compute. reflexivity.
  - intros x [<-|[]]. vm_compute. reflexivity.
Defined.

(** ** Blank lines *)

Lemma blank_line_chars (l : string) :
  PyStr.is_empty (PyStr.strip l) = true ->
  PyStr.forallb_str PyStr.isspace_char l = true.
Proof.
  intros H.
  assert (Hnone : PyStr.forallb_str (fun _ => false) (PyStr.strip l) = true).
  { destruct (PyStr.strip l); [reflexivity|discriminate]. }
  apply forallb_str_strip in Hnone. revert Hnone. apply forallb_str_impl.
  intros a Ha. exact Ha.
Qed.

(** A blank line has no word in it. *)
Lemma blank_line_plain (l : string) (c : ascii) (sub : string) :
  PyStr.is_empty (PyStr.strip l) = true ->
  PyStr.isspace_char c = false ->
  PyStr.contains (String c sub) l = false.
Proof.
  intros Hblank Hc. apply blank_line_chars in Hblank.
  destruct (PyStr.contains (String c sub) l) eqn:E; [|reflexivity].
  now rewrite (forallb_str_contains PyStr.isspace_char c sub l Hblank E) in Hc.
Qed.

Lemma blank_line_skips (l : string) (b : bool) :
  PyStr.is_empty (PyStr.strip l) = true -> skips b l.
Proof.
  intros Hblank h acc rest. cbn [vested_scan]. unfold vested_start.
  rewrite (blank_line_plain l "V" "ested Stocks" Hblank eq_refl).
  rewrite (blank_line_plain l "E" "SPP" Hblank eq_refl).
  rewrite Hblank. cbn [andb negb]. now rewrite andb_false_r.
Qed.

Lemma espp_scan_blank (l : string) (post : list string) :
  PyStr.is_empty (PyStr.strip l) = true ->
  forall pre b h acc,
    espp_scan b h acc (pre ++ l :: post) = espp_scan b h acc (pre ++ post).
Proof.
  intros Hblank.
  induction pre as [|x pre IH]; intros b h acc; cbn [espp_scan app].
  - unfold espp_start, espp_stop.
    rewrite (blank_line_plain l "E" "SPP (Employee Stock Purchase Plan)" Hblank eq_refl).
    rewrite (blank_line_plain l "T" "otal amount" Hblank eq_refl).
    rewrite (blank_line_plain l "P" "age" Hblank eq_refl).
    rewrite Hblank. cbn [orb negb]. now rewrite !andb_false_r.
  - destruct (espp_start x); [apply IH|].
    destruct (b && espp_stop x); [reflexivity|].
    destruct (b && negb (PyStr.is_empty (PyStr.strip x))); [|apply IH].
    destruct (espp_header x); [apply IH|].
    destruct (PyStr.startswith "CHF" (PyStr.strip x)); [apply IH|].
    destruct (2 <=? List.length (PyStr.split_ws x))%nat; [|apply IH].
    destruct (espp_row (PyStr.split_ws x)); apply IH.
Qed.

(** X4. A line that is empty or all white space can be put anywhere in a
    text, or taken out of it, without changing the vested-stocks records nor
    the ESPP records. *)
Theorem blank_line_is_ignored (text text' : string) (pre post : list string) (l : string) :
  PyStr.split_char "010" text = pre ++ post ->
  PyStr.split_char "010" text' = pre ++ l :: post ->
  PyStr.is_empty (PyStr.strip l) = true ->
  extract_vested_stocks_from_text text' = extract_vested_stocks_from_text text
  /\ extract_espp_from_text text' = extract_espp_from_text text.
Proof.
  intros Ht Ht' Hblank. unfold extract_vested_stocks_from_text, extract_espp_from_text.
  rewrite Ht, Ht'. split.
  - apply vested_scan_insert. now apply blank_line_skips.
  - now apply espp_scan_blank.
Qed.

Lemma blank_line_is_ignored_witness :
  extract_vested_stocks_from_text
    ("Vested Stocks 2024" ++ nl ++ "   " ++ nl ++
     "01.03.2022 AB123 15.03.2024 10.00 1500.00 150")
  = extract_vested_stocks_from_text
      ("Vested Stocks 2024" ++ nl ++ "01.03.2022 AB123 15.03.2024 10.00 1500.00 150").
Proof.
  apply (blank_line_is_ignored
           ("Vested Stocks 2024" ++ nl ++ "01.03.2022 AB123 15.03.2024 10.00 1500.00 150")
           ("Vested Stocks 2024" ++ nl ++ "   " ++ nl ++
            "01.03.2022 AB123 15.03.2024 10.00 1500.00 150")
           ["Vested Stocks 2024"] ["01.03.2022 AB123 15.03.2024 10.00 1500.00 150"] "   ");
    vm_compute; reflexivity.
Defined.

(** ** The records of the scans *)

Lemma vested_row_ok (parts : list string) (new : list record) :
  vested_row parts = Some new ->
  Forall vested_record_ok new /\ (List.length new <= 1)%nat.
Proof.
  unfold vested_row.
  destruct (nth_error parts 2) as [vest_date|]; [|discriminate].
  destruct (nth_error parts 5) as [shares|]; [|discriminate].
  destruct (vest_date_ok vest_date) eqn:Hok; intros H; injection H as <-.
  - split; [|simpl; lia]. constructor; [|constructor].
    now exists vest_date, shares.
  - split; [constructor|simpl; lia].
Qed.

Lemma vested_scan_ok (lines : list string) :
  forall b h acc,
    Forall vested_record_ok acc ->
    Forall vested_record_ok (vested_scan b h acc lines)
    /\ (List.length (vested_scan b h acc lines) <= List.length acc + List.length lines)%nat.
Proof.
  induction lines as [|x lines IH]; intros b h acc Hacc; cbn [vested_scan].
  - split; [exact Hacc|lia].
  - cbn [List.length].
    assert (Hgo : forall b' h',
               Forall vested_record_ok (vested_scan b' h' acc lines)
               /\ (List.length (vested_scan b' h' acc lines)
                   <= List.length acc + S (List.length lines))%nat).
    { intros b' h'. destruct (IH b' h' acc Hacc) as [H1 H2]. split; [exact H1|lia]. }
    destruct (vested_start x); [apply Hgo|].
    destruct (PyStr.contains "ESPP" x); [split; [exact Hacc|lia]|].
    destruct (b && negb (PyStr.is_empty (PyStr.strip x))); [|apply Hgo].
    destruct (vested_header x); [apply Hgo|].
    destruct (vested_total_line x); [apply Hgo|].
    destruct (6 <=? List.length (PyStr.split_ws x))%nat; [|apply Hgo].
    destruct (vested_row (PyStr.split_ws x)) as [new|] eqn:Hrow; [|apply Hgo].
    destruct (vested_row_ok _ _ Hrow) as [Hnew Hlen].
    destruct (IH b h (acc ++ new)) as [H1 H2].
    { apply Forall_app. now split. }
    split; [exact H1|]. rewrite length_app in H2. lia.
Qed.

Lemma vested_extracted_ok (text : string) :
  Forall vested_record_ok (extract_vested_stocks_from_text text).
Proof.
  unfold extract_vested_stocks_from_text.
  apply (vested_scan_ok (PyStr.split_char "010" text) false 0 [] (Forall_nil _)).
Qed.

(** X5. Every record of the vested-stocks extractor has the two fields
    "Vest Date" and "Shares", in this order, and its vest date has a dot and
    is three parts around dots; there is at most one record for each line of
    the text. *)
Theorem vested_records_well_formed (text : string) :
  Forall vested_record_ok (extract_vested_stocks_from_text text)
  /\ (List.length (extract_vested_stocks_from_text text)
      <= List.length (PyStr.split_char "010" text))%nat.
Proof.
  unfold extract_vested_stocks_from_text.
  destruct (vested_scan_ok (PyStr.split_char "010" text) false 0 [] (Forall_nil _))
    as [H1 H2].
  split; [exact H1|exact H2].
Qed.

Lemma espp_row_ok (parts : list string) (new : list record) :
  espp_row parts = Some new ->
  Forall espp_record_ok new /\ (List.length new <= 1)%nat.
Proof.
  unfold espp_row.
  destruct (nth_error parts 0) as [off_period|]; [|discriminate].
  destruct (nth_error parts 1) as [purchased_shares|]; [|discriminate].
  destruct (off_period_ok off_period purchased_shares) eqn:Hok;
    intros H; injection H as <-.
  - split; [|simpl; lia]. constructor; [|constructor].
    now exists off_period, purchased_shares.
  - split; [constructor|simpl; lia].
Qed.

Lemma espp_scan_ok (lines : list string) :
  forall b h acc,
    Forall espp_record_ok acc ->
    Forall espp_record_ok (espp_scan b h acc lines)
    /\ (List.length (espp_scan b h acc lines) <= List.length acc + List.length lines)%nat.
Proof.
  induction lines as [|x lines IH]; intros b h acc Hacc; cbn [espp_scan].
  - split; [exact Hacc|lia].
  - cbn [List.length].
    assert (Hgo : forall b' h',
               Forall espp_record_ok (espp_scan b' h' acc lines)
               /\ (List.length (espp_scan b' h' acc lines)
                   <= List.length acc + S (List.length lines))%nat).
    { intros b' h'. destruct (IH b' h' acc Hacc) as [H1 H2]. split; [exact H1|lia]. }
    destruct (espp_start x); [apply Hgo|].
    destruct (b && espp_stop x); [split; [exact Hacc|lia]|].
    destruct (b && negb (PyStr.is_empty (PyStr.strip x))); [|apply Hgo].
    destruct (espp_header x); [apply Hgo|].
    destruct (PyStr.startswith "CHF" (PyStr.strip x)); [apply Hgo|].
    destruct (2 <=? List.length (PyStr.split_ws x))%nat; [|apply Hgo].
    destruct (espp_row (PyStr.split_ws x)) as [new|] eqn:Hrow; [|apply Hgo].
    destruct (espp_row_ok _ _ Hrow) as [Hnew Hlen].
    destruct (IH b h (acc ++ new)) as [H1 H2].
    { apply Forall_app. now split. }
    split; [exact H1|]. rewrite length_app in H2. lia.
Qed.

Lemma espp_extracted_ok (text : string) :
  Forall espp_record_ok (extract_espp_from_text text).
Proof.
  unfold extract_espp_from_text.
  apply (espp_scan_ok (PyStr.split_char "010" text) false 0 [] (Forall_nil _)).
Qed.

(** X6. Every record of the ESPP extractor has the two fields "Off Period"
    and "Purchased Shares", in this order, and its period is made of digits,
    or of letters and digits beside a number of shares made of digits and
    dots; there is at most one record for each line of the text. *)
Theorem espp_records_well_formed (text : string) :
  Forall espp_record_ok (extract_espp_from_text text)
  /\ (List.length (extract_espp_from_text text)
      <= List.length (PyStr.split_char "010" text))%nat.
Proof.
  unfold extract_espp_from_text.
  destruct (espp_scan_ok (PyStr.split_char "010" text) false 0 [] (Forall_nil _))
    as [H1 H2].
  split; [exact H1|exact H2].
Qed.

(** ** No missing field *)

Lemma vested_aggregate_loop_some (vested_stocks : list record) :
  Forall vested_record_ok vested_stocks ->
  forall date_shares,
    vested_aggregate_loop date_shares vested_stocks
    = Some (add_all date_shares (parsed_vested vested_stocks)).
Proof.
  induction 1 as [|r rs (vest_date & shares & -> & _) _ IH]; intros date_shares.
  - reflexivity.
  - cbn [vested_aggregate_loop dict_lookup parsed_vested flat_map dict_get].
    change (String.eqb "Vest Date" "Vest Date") with true.
    change (String.eqb "Vest Date" "Shares") with false.
    change (String.eqb "Shares" "Shares") with true. cbv iota.
    fold (parsed_vested rs).
    destruct (PyFloat.of_string (clean_shares shares)); cbn [app]; apply IH.
Qed.

Lemma sum_field_some (field_date field : string) (data : list record) :
  (forall r, In r data -> exists d v, r = [(field_date, d); (field, v)]) ->
  String.eqb field_date field = false ->
  forall total, sum_field field total data <> None.
Proof.
  intros Hshape Hne.
  induction data as [|r rs IH]; intros total; cbn [sum_field].
  - discriminate.
  - destruct (Hshape r (or_introl eq_refl)) as (d & v & ->).
    cbn [dict_lookup]. rewrite Hne, String.eqb_refl.
    assert (Hrs : forall r0, In r0 rs -> exists d0 v0, r0 = [(field_date, d0); (field, v0)]).
    { intros r0 Hr0. apply Hshape. now right. }
    destruct (PyFloat.of_string (clean_shares v)); now apply IH.
Qed.

(** X7. On the records of the two extractors the reports never miss a field:
    the aggregation of the vested-stocks records by vest date and the two
    totals of [read_vested_data] find "Vest Date", "Shares" and "Purchased
    Shares" in every record, so no [KeyError] is raised. *)
Theorem reports_find_their_fields (text : string) :
  aggregate_vested (extract_vested_stocks_from_text text) <> None
  /\ display_vested_results (extract_vested_stocks_from_text text) <> None
  /\ (forall total,
         sum_field "Shares" total (extract_vested_stocks_from_text text) <> None)
  /\ (forall total,
         sum_field "Purchased Shares" total (extract_espp_from_text text) <> None).
Proof.
  pose proof (vested_extracted_ok text) as Hv.
  pose proof (espp_extracted_ok text) as He.
  assert (Hagg : aggregate_vested (extract_vested_stocks_from_text text) <> None).
  { unfold aggregate_vested. now rewrite (vested_aggregate_loop_some _ Hv). }
  split; [exact Hagg|]. split; [|split].
  - unfold display_vested_results.
    destruct (extract_vested_stocks_from_text text); [discriminate|].
    destruct (aggregate_vested (r :: l)); [discriminate|now destruct Hagg].
  - apply (sum_field_some "Vest Date"); [|reflexivity].
    intros r Hr. rewrite Forall_forall in Hv.
    destruct (Hv r Hr) as (d & v & -> & _). now exists d, v.
  - apply (sum_field_some "Off Period"); [|reflexivity].
    intros r Hr. rewrite Forall_forall in He.
    destruct (He r Hr) as (d & v & -> & _). now exists d, v.
Qed.

(** ** The sale pattern *)

Section Matching.
Import PyRe.

Lemma append_nil_r (s : string) : (s ++ "")%string = s.
Proof. induction s as [|a s IH]; simpl; [reflexivity|now rewrite IH]. Qed.

Lemma append_assoc (a b c : string) : ((a ++ b) ++ c = a ++ b ++ c)%string.
Proof. induction a as [|x a IH]; simpl; [reflexivity|now rewrite IH]. Qed.

Lemma length_append (a b : string) :
  String.length (a ++ b)%string = String.length a + String.length b.
Proof. induction a as [|x a IH]; simpl; [reflexivity|now rewrite IH]. Qed.

Lemma substring_prefix (p r : string) : substring 0 (String.length p) (p ++ r)%string = p.
Proof.
  induction p as [|a p IH]; simpl.
  - now destruct r.
  - now rewrite IH.
Qed.

Lemma substring_append (x p r : string) :
  substring (String.length x) (String.length p) (x ++ p ++ r)%string = p.
Proof.
  induction x as [|a x IH]; simpl.
  - apply substring_prefix.
  - exact IH.
Qed.

(** What a repetition has taken when the match goes through. *)
Lemma rep_some (cls : ascii -> bool) (k : string -> nat -> option caps) (r : caps) :
  forall s lo hi i,
    rep cls k lo hi s i = Some r ->
    exists pre s',
      s = (pre ++ s')%string
      /\ PyStr.forallb_str cls pre = true
      /\ lo <= String.length pre
      /\ match hi with Some h => String.length pre <= h | None => True end
      /\ k s' (i + String.length pre) = Some r.
Proof.
  assert (Hstop : forall s lo hi i,
             (if (lo =? 0)%nat then k s i else None) = Some r ->
             exists pre s',
               s = (pre ++ s')%string
               /\ PyStr.forallb_str cls pre = true
               /\ lo <= String.length pre
               /\ match hi with Some h => String.length pre <= h | None => True end
               /\ k s' (i + String.length pre) = Some r).
  { intros s lo hi i H. destruct (Nat.eqb_spec lo 0) as [->|]; [|discriminate].
    exists "", s. simpl. rewrite Nat.add_0_r.
    repeat split; try assumption; try lia. destruct hi; [lia|exact I]. }
  induction s as [|a s IH]; intros lo hi i H; cbn [rep] in H.
  - now apply Hstop.
  - destruct (cls a && more hi) eqn:E; [|now apply Hstop].
    apply andb_true_iff in E. destruct E as [Ha Hmore].
    destruct (rep cls k (Nat.pred lo) (option_map Nat.pred hi) s (S i)) as [r'|] eqn:Hrec;
      [|now apply Hstop].
    injection H as ->.
    destruct (IH _ _ _ Hrec) as (pre & s' & -> & Hall & Hlo & Hhi & Hk).
    exists (String a pre), s'. simpl. rewrite Ha, Hall.
    replace (i + S (String.length pre)) with (S i + String.length pre) by lia.
    repeat split; try assumption; try lia.
    destruct hi as [h|]; [|exact I]. simpl in Hhi, Hmore.
    apply Nat.ltb_lt in Hmore. lia.
Qed.

(** What a run of repetitions has taken. *)
Lemma match_here_reps (body : list item) :
  forallb is_rep body = true ->
  forall p' c s i m,
    match_here (body ++ p') c s i = Some m ->
    exists pre s',
      s = (pre ++ s')%string /\ fits body pre
      /\ match_here p' c s' (i + String.length pre) = Some m.
Proof.
  induction body as [|[cls lo hi|g|g] body IH]; intros Hreps p' c s i m H;
    try discriminate.
  - exists "", s. simpl. rewrite Nat.add_0_r. now repeat split.
  - cbn [app match_here] in H.
    destruct (rep_some _ _ _ _ _ _ _ H) as (a & s1 & -> & Hall & Hlo & Hhi & Hk).
    destruct (IH Hreps _ _ _ _ _ Hk) as (b & s' & -> & Hfits & Hrest).
    exists (a ++ b)%string, s'. rewrite append_assoc, length_append, Nat.add_assoc.
    repeat split; try assumption.
    cbn [fits]. now exists a, b.
Qed.

(** The rest of a pattern leaves the groups it does not close as they are. *)
Lemma match_here_span (g : nat) (p : list item) :
  (forall g', In (Close g') p -> g' <> g) ->
  forall c s i m,
    match_here p c s i = Some m -> span_of g (closed m) = span_of g (closed c).
Proof.
  induction p as [|[cls lo hi|g'|g'] p IH]; intros Hp c s i m H; cbn [match_here] in H.
  - now injection H as ->.
  - destruct (rep_some _ _ _ _ _ _ _ H) as (a & s1 & _ & _ & _ & _ & Hk).
    apply (IH (fun g0 H0 => Hp g0 (or_intror H0)) _ _ _ _ Hk).
  - apply (IH (fun g0 H0 => Hp g0 (or_intror H0))) in H. exact H.
  - apply (IH (fun g0 H0 => Hp g0 (or_intror H0))) in H. rewrite H. cbn [closed span_of].
    destruct (Nat.eqb_spec g' g) as [E|]; [|reflexivity].
    now destruct (Hp g' (or_introl eq_refl)).
Qed.

(** What a group has taken is what [group] gives. *)
Lemma match_here_group (g : nat) (body p' : list item) (line x : string) :
  forallb is_rep body = true ->
  (forall g', In (Close g') p' -> g' <> g) ->
  forall c s m,
    line = (x ++ s)%string ->
    match_here (Open g :: body ++ Close g :: p') c s (String.length x) = Some m ->
    exists pre s' c',
      s = (pre ++ s')%string /\ fits body pre /\ group line m g = pre
      /\ match_here p' c' s' (String.length (x ++ pre)%string) = Some m.
Proof.
  intros Hreps Hp' c s m Hline H. cbn [match_here] in H.
  destruct (match_here_reps body Hreps _ _ _ _ _ H) as (pre & s' & -> & Hfits & Hrest).
  cbn [match_here opened closed start_of] in Hrest.
  rewrite Nat.eqb_refl in Hrest.
  exists pre, s'. eexists. split; [reflexivity|]. split; [exact Hfits|].
  rewrite length_append. split; [|exact Hrest].
  unfold group. rewrite (match_here_span g p' Hp' _ _ _ _ Hrest). cbn [closed span_of].
  rewrite Nat.eqb_refl, Hline.
  replace (String.length x + String.length pre - String.length x)
    with (String.length pre) by lia.
  apply substring_append.
Qed.

Lemma fits_date_shape (pre : string) : fits date_shape pre -> date_shaped pre = true.
Proof.
  unfold date_shape, exactly. cbn [fits].
  intros (a1 & b1 & -> & H1 & L1 & U1 & a2 & b2 & -> & H2 & L2 & U2
          & a3 & b3 & -> & H3 & L3 & U3 & a4 & b4 & -> & H4 & L4 & U4
          & a5 & b5 & -> & H5 & L5 & U5 & ->).
  destruct a1 as [|w1 [|w2 [|w3 [|? ?]]]]; simpl in L1, U1; try lia.
  destruct a2 as [|c1 [|? ?]]; simpl in L2, U2; try lia.
  destruct a3 as [|d1 [|d2 [|? ?]]]; simpl in L3, U3; try lia.
  destruct a4 as [|c2 [|? ?]]; simpl in L4, U4; try lia.
  destruct a5 as [|y1 [|y2 [|y3 [|y4 [|? ?]]]]]; simpl in L5, U5; try lia.
  cbn [PyStr.forallb_str] in H1, H2, H3, H4, H5.
  rewrite !andb_true_r in *. unfold lit in H2, H4.
  apply Ascii.eqb_eq in H2, H4. subst c1 c2.
  repeat match goal with
         | H : _ && _ = true |- _ => apply andb_true_iff in H; destruct H
         end.
  cbn [append date_shaped].
  repeat match goal with
         | H : _ = true |- _ => rewrite H; clear H
         end.
  reflexivity.
Qed.

Lemma fits_quantity (pre : string) :
  fits [plus (fun a => digit a || lit "." a)] pre -> quantity_shaped pre = true.
Proof.
  unfold plus. cbn [fits]. intros (a & b & -> & Hall & Hlo & _ & ->).
  rewrite append_nil_r. unfold quantity_shaped. rewrite Hall.
  destruct a; simpl in Hlo; [lia|reflexivity].
Qed.

Lemma contains_at (c : ascii) (x r : string) :
  PyStr.contains (String c "") (x ++ String c r)%string = true.
Proof.
  induction x as [|a x IH]; cbn [append PyStr.contains].
  - cbn [prefix]. destruct (ascii_dec c c) as [_|n]; [|now destruct n].
    now destruct r.
  - rewrite IH. apply orb_true_r.
Qed.

Ltac no_close :=
  let g := fresh "g" in
  let Hg := fresh "Hg" in
  intros g Hg ->; cbv [date_shape exactly plus app In] in Hg;
  repeat (destruct Hg as [Hg|Hg]; [discriminate Hg|]); exact Hg.

Ltac take_group H Hline g body :=
  lazymatch type of H with
  | match_here (Open _ :: _ ++ Close _ :: ?p') _ _ _ = _ =>
      let Hc := fresh "Hc" in
      assert (Hc : forall g', In (Close g') p' -> g' <> g) by no_close;
      apply (match_here_group g body p' _ _ eq_refl Hc _ _ _ Hline) in H
  end.

(** Where the pattern matches, the first group is shaped like a date and the
    third is digits and dots. *)
Lemma match_here_pattern (line x s : string) (c m : caps) :
  line = (x ++ s)%string ->
  match_here pattern c s (String.length x) = Some m ->
  date_shaped (group line m 1) = true /\ quantity_shaped (group line m 3) = true
  /\ PyStr.contains "$" line = true.
Proof.
  intros Hline H.
  change pattern with
    (Open 1 :: date_shape ++ Close 1 ::
       ([plus space] ++
        Open 2 :: date_shape ++ Close 2 ::
          ([plus space] ++
           Open 3 :: [plus (fun a => digit a || lit "." a)] ++ Close 3 ::
             [plus space; exactly (lit "$") 1;
              plus (fun a => digit a || lit "," a || lit "." a)]))) in H.
  take_group H Hline 1 date_shape.
  destruct H as (pre1 & s1 & c1 & -> & Hfit1 & Hg1 & H1).
  split; [rewrite Hg1; now apply fits_date_shape|].
  rewrite <- append_assoc in Hline.
  destruct (match_here_reps [plus space] eq_refl _ _ _ _ _ H1)
    as (sp1 & s2 & -> & _ & H2).
  rewrite <- length_append in H2. rewrite <- append_assoc in Hline.
  take_group H2 Hline 2 date_shape.
  destruct H2 as (pre2 & s3 & c2 & -> & _ & _ & H3).
  rewrite <- append_assoc in Hline.
  destruct (match_here_reps [plus space] eq_refl _ _ _ _ _ H3)
    as (sp2 & s4 & -> & _ & H4).
  rewrite <- length_append in H4. rewrite <- append_assoc in Hline.
  take_group H4 Hline 3 [plus (fun a => digit a || lit "." a)].
  destruct H4 as (pre3 & s5 & c3 & -> & Hfit3 & Hg3 & H5).
  split; [rewrite Hg3; now apply fits_quantity|].
  destruct (match_here_reps [plus space; exactly (lit "$") 1] eq_refl
              [plus (fun a => digit a || lit "," a || lit "." a)] _ _ _ _ H5)
    as (pre4 & s6 & -> & Hfit4 & _).
  cbn [fits plus exactly] in Hfit4.
  destruct Hfit4 as (sp3 & b & -> & _ & _ & _ & a & b' & -> & Ha & La & Ua & ->).
  destruct a as [|d [|? ?]]; simpl in La, Ua; try lia.
  cbn [PyStr.forallb_str] in Ha. rewrite andb_true_r in Ha.
  unfold lit in Ha. apply Ascii.eqb_eq in Ha. subst d.
  rewrite Hline.
  replace (((((x ++ pre1) ++ sp1) ++ pre2) ++ sp2) ++ pre3 ++ (sp3 ++ "$" ++ "") ++ s6)%string
    with (((((((x ++ pre1) ++ sp1) ++ pre2) ++ sp2) ++ pre3) ++ sp3) ++ String "$" s6)%string
    by (now rewrite !append_assoc).
  apply contains_at.
Qed.

Lemma search_from_pattern (line : string) :
  forall s x m,
    line = (x ++ s)%string ->
    search_from pattern s (String.length x) = Some m ->
    date_shaped (group line m 1) = true /\ quantity_shaped (group line m 3) = true
    /\ PyStr.contains "$" line = true.
Proof.
  induction s as [|a s IH]; intros x m Hline H; cbn [search_from] in H.
  - destruct (match_here pattern _ "" (String.length x)) as [c|] eqn:E; [|discriminate].
    injection H as ->. now apply (match_here_pattern line x "" _ _ Hline E).
  - destruct (match_here pattern _ (String a s) (String.length x)) as [c|] eqn:E.
    + injection H as ->. now apply (match_here_pattern line x _ _ _ Hline E).
    + apply (IH (x ++ String a "")%string).
      * now rewrite append_assoc.
      * rewrite length_append. simpl. now rewrite Nat.add_1_r.
Qed.

End Matching.

Lemma transaction_of_line_ok (line : string) :
  Forall sale_record_ok (transaction_of_line line)
  /\ (List.length (transaction_of_line line) <= 1)%nat.
Proof.
  unfold transaction_of_line, PyRe.search.
  destruct (PyRe.search_from pattern line 0) as [m|] eqn:E.
  - destruct (search_from_pattern line line "" m eq_refl E) as (Hd & Hq & _).
    split; [|simpl; lia]. constructor; [|constructor].
    now exists (PyRe.group line m 1), (PyRe.group line m 3).
  - split; [constructor|simpl; lia].
Qed.

(** X8. Every record of the sale extractor has the two fields "Date sold or
    transferred" and "Quantity", in this order; its date is three word
    characters, a dash, two digits, a dash and four digits, and its quantity
    is made of digits and dots, at least one; there is at most one record for
    each line of the text. *)
Theorem sale_records_well_formed (text : string) :
  Forall sale_record_ok (extract_transactions_from_text text)
  /\ (List.length (extract_transactions_from_text text)
      <= List.length (PyStr.split_char "010" text))%nat.
Proof.
  unfold extract_transactions_from_text.
  rewrite transactions_of_lines_flat_map. cbn [app].
  induction (PyStr.split_char "010" text) as [|line lines [IH1 IH2]]; cbn [flat_map].
  - split; [constructor|simpl; lia].
  - destruct (transaction_of_line_ok line) as [H1 H2]. split.
    + apply Forall_app. now split.
    + rewrite length_app. simpl. lia.
Qed.

(** ** Texts and pages put together *)

(** X9. The sale extractor reads each line on its own: the records of two
    texts joined by a line break are the records of the first followed by
    the records of the second. *)
Theorem sale_extraction_of_joined_texts (text1 text2 : string) :
  extract_transactions_from_text (text1 ++ nl ++ text2)
  = extract_transactions_from_text text1 ++ extract_transactions_from_text text2.
Proof.
  unfold extract_transactions_from_text.
  change (nl ++ text2)%string with (String "010" text2).
  rewrite split_char_app, !transactions_of_lines_flat_map. cbn [app].
  apply flat_map_app.
Qed.

Lemma table_of_pages_texts (pages : list (option string)) :
  forall all_transactions,
    table_of_pages all_transactions (map inr pages)
    = inr (all_transactions ++ flat_map extract_transactions_from_text (page_texts pages)).
Proof.
  induction pages as [|[text|] pages IH]; intros all_transactions; cbn [map table_of_pages page_texts].
  - now rewrite app_nil_r.
  - destruct (PyStr.is_empty text); rewrite IH; [reflexivity|].
    cbn [flat_map]. now rewrite app_assoc.
  - apply IH.
Qed.

(** X10. When every page of the statement can be read, the transactions of
    [extract_table_from_pdf] are those of its pages in page order, a page
    without text giving none. *)
Theorem table_is_pages_in_order (pages : list (option string)) :
  extract_table_from_pdf (inr (map inr pages))
  = inr (flat_map extract_transactions_from_text (page_texts pages)).
Proof.
  unfold extract_table_from_pdf. now rewrite table_of_pages_texts.
Qed.

Lemma vested_stocks_of_pages_texts (pages : list (option string)) :
  forall results,
    vested_stocks_of_pages results (map inr pages)
    = inr (fst results ++ flat_map extract_vested_stocks_from_text (page_texts pages),
           snd results ++ flat_map extract_espp_from_text (page_texts pages)).
Proof.
  induction pages as [|[text|] pages IH]; intros [vs es];
    cbn [map vested_stocks_of_pages page_texts fst snd].
  - now rewrite !app_nil_r.
  - destruct (PyStr.is_empty text); rewrite IH; [reflexivity|].
    cbn [flat_map fst snd]. now rewrite !app_assoc.
  - apply IH.
Qed.

(** X11. When every page can be read, [extract_vested_stocks] scans each
    page on its own: its two lists are the vested-stocks records and the ESPP
    records of the pages in page order, so that a section never goes on from
    one page to the next. *)
Theorem vested_stocks_page_by_page (pages : list (option string)) :
  extract_vested_stocks (inr (map inr pages))
  = inr (flat_map extract_vested_stocks_from_text (page_texts pages),
         flat_map extract_espp_from_text (page_texts pages)).
Proof.
  unfold extract_vested_stocks. now rewrite vested_stocks_of_pages_texts.
Qed.

Lemma split_char_line_break (text : string) :
  PyStr.split_char "010" (text ++ nl) = PyStr.split_char "010" text ++ [""].
Proof.
  unfold nl. now rewrite split_char_app.
Qed.

(** X12. On a statement of one page, [extract_vested_data] and
    [extract_vested_stocks] give the same two lists, those of the two
    extractors on the text of the page: the line break that
    [extract_vested_data] puts after the text changes nothing. *)
Theorem one_page_statement (text : string) :
  PyStr.is_empty text = false ->
  extract_vested_data (inr [inr (Some text)])
  = inr (extract_vested_stocks_from_text text, extract_espp_from_text text)
  /\ extract_vested_stocks (inr [inr (Some text)])
     = inr (extract_vested_stocks_from_text text, extract_espp_from_text text).
Proof.
  intros Hne. split.
  - unfold extract_vested_data. cbn [text_of_pages]. rewrite Hne.
    cbn [append]. unfold extract_vested_stocks_from_text, extract_espp_from_text.
    rewrite split_char_line_break. f_equal. f_equal.
    + rewrite <- (app_nil_r (PyStr.split_char "010" text)) at 2.
      apply vested_scan_insert. now apply blank_line_skips.
    + rewrite <- (app_nil_r (PyStr.split_char "010" text)) at 2.
      now apply espp_scan_blank.
  - unfold extract_vested_stocks. cbn [vested_stocks_of_pages]. rewrite Hne.
    reflexivity.
Qed.

Lemma one_page_statement_witness :
  extract_vested_data (inr [inr (Some scenario_A)])
  = inr (extract_vested_stocks_from_text scenario_A, extract_espp_from_text scenario_A).
Proof.
  apply (one_page_statement scenario_A). reflexivity.
Defined.

(** ** The dates of the aggregate *)

Section AggregateKeys.
Import PyFloat.

Lemma dict_mem_add_quantity (acc : aggregate) (k d : string) (q : float) :
  dict_mem (add_quantity acc k q) d = dict_mem acc d || String.eqb k d.
Proof.
  unfold dict_mem at 1 2. rewrite dict_lookup_add_quantity.
  destruct (String.eqb k d) eqn:E.
  - now rewrite orb_true_r.
  - rewrite orb_false_r. reflexivity.
Qed.

Lemma add_quantity_keys (acc : aggregate) (k : string) (q : float) :
  map fst (add_quantity acc k q)
  = if dict_mem acc k then map fst acc else map fst acc ++ [k].
Proof.
  unfold add_quantity. destruct (dict_mem acc k).
  - apply dict_update_keys.
  - now rewrite map_app.
Qed.

Lemma filter_twice (p q : string -> bool) (l : list string) :
  filter p (filter q l) = filter (fun x => p x && q x) l.
Proof.
  induction l as [|x l IH]; simpl; [reflexivity|].
  destruct (q x); simpl.
  - rewrite andb_true_r. destruct (p x); now rewrite IH.
  - now rewrite andb_false_r.
Qed.

Lemma add_all_keys (ps : list (string * float)) :
  forall acc,
    map fst (add_all acc ps)
    = map fst acc
      ++ filter (fun d => negb (dict_mem acc d)) (first_occurrences (map fst ps)).
Proof.
  induction ps as [|[k q] ps IH]; intros acc;
    cbn [add_all fold_left fst snd map first_occurrences filter].
  - now rewrite app_nil_r.
  - fold (add_all (add_quantity acc k q) ps). rewrite IH, add_quantity_keys.
    rewrite filter_twice.
    destruct (dict_mem acc k) eqn:Hk; cbn [negb].
    + f_equal. apply filter_ext_in. intros d _.
      rewrite dict_mem_add_quantity. rewrite String.eqb_sym.
      destruct (String.eqb d k) eqn:E; [|now rewrite orb_false_r, andb_true_r].
      apply String.eqb_eq in E. subst d. now rewrite Hk.
    + rewrite <- app_assoc. cbn [app]. f_equal. f_equal.
      apply filter_ext_in. intros d _.
      rewrite dict_mem_add_quantity, negb_orb. now rewrite (String.eqb_sym k d).
Qed.

Lemma add_all_length (ps : list (string * float)) :
  forall acc, List.length (add_all acc ps) <= List.length acc + List.length ps.
Proof.
  induction ps as [|[k q] ps IH]; intros acc; cbn [add_all fold_left fst snd].
  - simpl. lia.
  - fold (add_all (add_quantity acc k q) ps).
    specialize (IH (add_quantity acc k q)).
    assert (List.length (add_quantity acc k q) <= S (List.length acc)).
    { rewrite <- (length_map fst), add_quantity_keys.
      destruct (dict_mem acc k); rewrite ?length_app, length_map; simpl; lia. }
    simpl. lia.
Qed.

Lemma parsed_length (data : list record) : List.length (parsed data) <= List.length data.
Proof.
  induction data as [|t data IH]; cbn [parsed flat_map]; [simpl; lia|].
  fold (parsed data). rewrite length_app.
  destruct (of_string (dict_get t "Quantity" "0")); simpl; lia.
Qed.

End AggregateKeys.

(** X14. The dates of the mapping of [aggregate_by_date] stand in the order
    in which they first occur among the records whose quantity is a number,
    and the mapping has no more entries than there are records. *)
Theorem aggregate_by_date_keys (data : list record) :
  map fst (aggregate_by_date data) = first_occurrences (map fst (parsed data))
  /\ (List.length (aggregate_by_date data) <= List.length data)%nat.
Proof.
  unfold aggregate_by_date. rewrite aggregate_loop_parsed. split.
  - rewrite add_all_keys. cbn [map app].
    apply forallb_filter_id. apply forallb_forall. reflexivity.
  - pose proof (add_all_length (parsed data) []) as H1.
    pose proof (parsed_length data) as H2. simpl in H1. lia.
Qed.

(** X15. On the records of the vested-stocks extractor the aggregation by
    vest date succeeds; it has one entry for each vest date, and the quantity
    of a date is the binary64 sum, in the order of the records, of the shares
    of the records with that date that are numbers once commas and
    apostrophes are taken out. *)
Theorem aggregate_vested_sums (text : string) :
  exists date_shares,
    aggregate_vested (extract_vested_stocks_from_text text) = Some date_shares
    /\ NoDup (map fst date_shares)
    /\ forall date,
         dict_lookup date_shares date
         = sum_in_order
             (quantities_of date (parsed_vested (extract_vested_stocks_from_text text))).
Proof.
  pose proof (vested_extracted_ok text) as Hv.
  exists (add_all [] (parsed_vested (extract_vested_stocks_from_text text))).
  split; [|split].
  - unfold aggregate_vested. now apply vested_aggregate_loop_some.
  - apply add_all_nodup. constructor.
  - intros date. now rewrite add_all_lookup.
Qed.

(** X16. The vested table keeps every entry of the aggregation by vest
    date, also when there is none.  Of two entries whose vest dates are dates
    written day.month.year, the one with the earlier date stands first; an
    entry whose vest date is not such a date is sorted as 1 January 1900 and
    stands before every entry with a later date. *)
Theorem display_vested_results_order
    (vested_stocks : list record) (date_shares rows : list (string * PyFloat.float)) :
  aggregate_vested vested_stocks = Some date_shares ->
  display_vested_results vested_stocks = Some rows ->
  Permutation rows date_shares
  /\ forall a b,
       In a rows -> In b rows ->
       (forall da db,
           strptime_dmy (fst a) = Some da -> strptime_dmy (fst b) = Some db ->
           PyDate.ltb da db = true -> precedes a b rows)
       /\ (forall db,
              strptime_dmy (fst a) = None -> strptime_dmy (fst b) = Some db ->
              PyDate.ltb {| PyDate.year := 1900; PyDate.month := 1; PyDate.day := 1 |} db
              = true ->
              precedes a b rows).
Proof.
  intros Hagg Hrows.
  assert (Hsorted : rows = sorted (fun x => parse_vest_date (fst x)) date_shares).
  { unfold display_vested_results in Hrows. destruct vested_stocks as [|r rs].
    - injection Hrows as <-. vm_compute in Hagg. injection Hagg as <-. reflexivity.
    - rewrite Hagg in Hrows. now injection Hrows as <-. }
  subst rows. split; [apply sorted_perm|]. intros a b Ha Hb.
  assert (Hord : PyDate.ltb (parse_vest_date (fst a)) (parse_vest_date (fst b)) = true ->
                 precedes a b (sorted (fun x => parse_vest_date (fst x)) date_shares)).
  { apply (ordered_precedes (fun x => parse_vest_date (fst x))); try assumption.
    apply sorted_ordered. }
  split.
  - intros da db Hda Hdb Hlt. apply Hord.
    unfold parse_vest_date. now rewrite Hda, Hdb.
  - intros db Hda Hdb Hlt. apply Hord.
    unfold parse_vest_date. now rewrite Hda, Hdb.
Qed.

Lemma display_vested_results_order_witness :
  precedes ("15.03.2024", PyFloat.of_int 150) ("15.09.2024", PyFloat.of_int 25)
    [("15.03.2024", PyFloat.of_int 150); ("15.09.2024", PyFloat.of_int 25)].
Proof.
  apply (proj1 (proj2 (display_vested_results_order
                         (extract_vested_stocks_from_text vested_two_dates)
                         [("15.09.2024", PyFloat.of_int 25); ("15.03.2024", PyFloat.of_int 150)]
                         [("15.03.2024", PyFloat.of_int 150); ("15.09.2024", PyFloat.of_int 25)]
                         ltac:(vm_compute; reflexivity)
                         ltac:(vm_compute; reflexivity))
                      ("15.03.2024", PyFloat.of_int 150)
                      ("15.09.2024", PyFloat.of_int 25)
                      ltac:(simpl; auto)
                      ltac:(simpl; auto))
           {| PyDate.year := 2024; PyDate.month := 3; PyDate.day := 15 |}
           {| PyDate.year := 2024; PyDate.month := 9; PyDate.day := 15 |});
    vm_compute; reflexivity.
Defined.

(** ** A total that is not a number *)

(** X17. When one of the three totals is not a number, the net position is
    not a number either, and the summary labels it oversold. *)
Theorem display_summary_nan (total_vested total_purchased total_sold : PyFloat.float) :
  total_vested = S754_nan \/ total_purchased = S754_nan \/ total_sold = S754_nan ->
  display_summary total_vested total_purchased total_sold = (Oversold, S754_nan).
Proof.
  assert (Hadd_l : forall x, PyFloat.add S754_nan x = S754_nan) by reflexivity.
  assert (Hadd_r : forall x, PyFloat.add x S754_nan = S754_nan) by (now intros []).
  assert (Hsub_l : forall x, PyFloat.sub S754_nan x = S754_nan) by reflexivity.
  assert (Hsub_r : forall x, PyFloat.sub x S754_nan = S754_nan) by (now intros []).
  intros [-> | [-> | ->]]; unfold display_summary;
    rewrite ?Hadd_l, ?Hadd_r, ?Hsub_l, ?Hsub_r; reflexivity.
Qed.

Lemma display_summary_nan_witness :
  PyFloat.of_string "nan" = Some S754_nan
  /\ display_summary S754_nan (PyFloat.of_int 0) (PyFloat.of_int 90)
     = (Oversold, S754_nan).
Proof.
  split; [vm_compute; reflexivity|].
  apply (display_summary_nan S754_nan (PyFloat.of_int 0) (PyFloat.of_int 90)).
  left. reflexivity.
Defined.

(** ** Lines that are no sale *)

Lemma transaction_of_line_dollar (line : string) :
  PyStr.contains "$" line = false -> transaction_of_line line = [].
Proof.
  intros Hno. unfold transaction_of_line, PyRe.search.
  destruct (PyRe.search_from pattern line 0) as [m|] eqn:E; [|reflexivity].
  destruct (search_from_pattern line line "" m eq_refl E) as (_ & _ & Hd).
  now rewrite Hd in Hno.
Qed.

(** X18. A line without a dollar sign is never read as a sale: it can be
    put anywhere in a text, or taken out of it, without changing the
    transactions, and a text without any dollar sign gives none. *)
Theorem line_without_dollar_is_no_sale (text text' : string) (pre post : list string) (l : string) :
  PyStr.split_char "010" text = pre ++ post ->
  PyStr.split_char "010" text' = pre ++ l :: post ->
  PyStr.contains "$" l = false ->
  extract_transactions_from_text text' = extract_transactions_from_text text
  /\ ((forall x, In x (pre ++ post) -> PyStr.contains "$" x = false) ->
      extract_transactions_from_text text' = []).
Proof.
  intros Ht Ht' Hl. unfold extract_transactions_from_text.
  rewrite Ht, Ht', !transactions_of_lines_flat_map. cbn [app].
  rewrite !flat_map_app. cbn [flat_map].
  rewrite (transaction_of_line_dollar l Hl). cbn [app]. split; [reflexivity|].
  rewrite <- flat_map_app. clear Ht Ht'.
  induction (pre ++ post) as [|x xs IH]; intros Hall; cbn [flat_map]; [reflexivity|].
  rewrite (transaction_of_line_dollar x (Hall x (or_introl eq_refl))). cbn [app].
  apply IH. intros y Hy. apply Hall. now right.
Qed.

Lemma line_without_dollar_is_no_sale_witness :
  extract_transactions_from_text
    (scenario_C ++ nl ++ "Jan-16-2024 Jun-01-2020 3.0000 549.75 USD")
  = extract_transactions_from_text scenario_C.
Proof.
  apply (line_without_dollar_is_no_sale
           scenario_C
           (scenario_C ++ nl ++ "Jan-16-2024 Jun-01-2020 3.0000 549.75 USD")
           [scenario_C] [] "Jan-16-2024 Jun-01-2020 3.0000 549.75 USD");
    vm_compute; reflexivity.
Defined.

(** ** Separators and totals *)

Lemma remove_char_append (c : ascii) (a b : string) :
  PyStr.remove_char c (a ++ b) = (PyStr.remove_char c a ++ PyStr.remove_char c b)%string.
Proof.
  induction a as [|x a IH]; cbn [append PyStr.remove_char]; [reflexivity|].
  destruct (Ascii.eqb x c); cbn [append]; now rewrite IH.
Qed.

(** X19. In the shares of a vested-stocks or ESPP record an apostrophe or a
    comma changes nothing: the number read is that of the shares without
    it. *)
Theorem separators_are_ignored (a b : string) :
  PyFloat.of_string (clean_shares (a ++ "'" ++ b))
  = PyFloat.of_string (clean_shares (a ++ b))
  /\ PyFloat.of_string (clean_shares (a ++ "," ++ b))
     = PyFloat.of_string (clean_shares (a ++ b)).
Proof.
  unfold clean_shares. split; f_equal; rewrite !remove_char_append; reflexivity.
Qed.

Lemma sum_parsed_fold (f : record -> string) (data : list record) :
  forall total,
    sum_parsed f total data
    = fold_left PyFloat.add
        (flat_map (fun t => match PyFloat.of_string (f t) with
                            | Some q => [q]
                            | None => []
                            end) data) total.
Proof.
  induction data as [|t data IH]; intros total; cbn [sum_parsed flat_map].
  - reflexivity.
  - destruct (PyFloat.of_string (f t)); cbn [app fold_left]; apply IH.
Qed.

Lemma parsed_quantities (data : list record) :
  map snd (parsed data)
  = flat_map (fun t => match PyFloat.of_string (dict_get t "Quantity" "0") with
                       | Some q => [q]
                       | None => []
                       end) data.
Proof.
  induction data as [|t data IH]; cbn [parsed flat_map]; [reflexivity|].
  fold (parsed data). rewrite map_app, IH.
  now destruct (PyFloat.of_string (dict_get t "Quantity" "0")).
Qed.

(** X20. When the file exists and every page can be read, the total of
    [read_sold_shares] is the running binary64 sum, from 0.0 and in page and
    line order, of the quantities of the transactions of all pages that are
    numbers. *)
Theorem total_sold_is_running_sum (pages : list (option string)) :
  read_sold_shares true (inr (map inr pages))
  = inr (fold_left PyFloat.add
           (map snd (parsed (flat_map extract_transactions_from_text (page_texts pages))))
           PyFloat.zero).
Proof.
  unfold read_sold_shares, extract_table_from_pdf. cbn [negb].
  rewrite table_of_pages_texts. cbn [app].
  destruct (flat_map extract_transactions_from_text (page_texts pages)) as [|t ts] eqn:E.
  - reflexivity.
  - cbn [except_Exception]. now rewrite sum_parsed_fold, parsed_quantities.
Qed.

Lemma sum_field_fold (date_field field : string) (data : list record) :
  (forall r, In r data -> exists d v, r = [(date_field, d); (field, v)]) ->
  String.eqb date_field field = false ->
  forall total,
    sum_field field total data
    = Some (fold_left PyFloat.add
              (flat_map (fun entry =>
                           match PyFloat.of_string (clean_shares (dict_get entry field "")) with
                           | Some q => [q]
                           | None => []
                           end) data) total).
Proof.
  intros Hshape Hne.
  induction data as [|r rs IH]; intros total; cbn [sum_field flat_map].
  - reflexivity.
  - destruct (Hshape r (or_introl eq_refl)) as (d & v & ->).
    cbn [dict_lookup dict_get]. rewrite Hne, String.eqb_refl.
    assert (Hrs : forall r0, In r0 rs -> exists d0 v0, r0 = [(date_field, d0); (field, v0)]).
    { intros r0 Hr0. apply Hshape. now right. }
    destruct (PyFloat.of_string (clean_shares v)); cbn [app fold_left]; now apply IH.
Qed.

Lemma parsed_vested_quantities (data : list record) :
  map snd (parsed_vested data)
  = flat_map (fun entry =>
                match PyFloat.of_string (clean_shares (dict_get entry "Shares" "")) with
                | Some q => [q]
                | None => []
                end) data.
Proof.
  induction data as [|t data IH]; cbn [parsed_vested flat_map]; [reflexivity|].
  fold (parsed_vested data). rewrite map_app, IH.
  now destruct (PyFloat.of_string (clean_shares (dict_get t "Shares" ""))).
Qed.

(** X21. When the file exists and its pages can be read, the two totals of
    [read_vested_data] are the running binary64 sums, from 0.0 and in the
    order of the records, of the shares of the vested-stocks records and of
    the purchased shares of the ESPP records that are numbers once commas
    and apostrophes are taken out. *)
Theorem totals_vested_are_running_sums
    (opening : pdf) (vested_stocks espp_data : list record) :
  extract_vested_data opening = inr (vested_stocks, espp_data) ->
  read_vested_data true opening
  = inr (fold_left PyFloat.add (map snd (parsed_vested vested_stocks)) PyFloat.zero,
         fold_left PyFloat.add (purchased_quantities espp_data) PyFloat.zero).
Proof.
  intros H.
  assert (Hshape : Forall vested_record_ok vested_stocks /\ Forall espp_record_ok espp_data).
  { unfold extract_vested_data in H. destruct opening as [e|pages]; [discriminate|].
    destruct (text_of_pages "" pages) as [e|all_text]; [discriminate|].
    injection H as <- <-. split.
    - apply vested_extracted_ok.
    - apply espp_extracted_ok. }
  destruct Hshape as [Hv He].
  unfold read_vested_data. cbn [negb]. rewrite H.
  assert (Hsv : sum_field "Shares" PyFloat.zero vested_stocks
                = Some (fold_left PyFloat.add (map snd (parsed_vested vested_stocks))
                          PyFloat.zero)).
  { rewrite parsed_vested_quantities. apply (sum_field_fold "Vest Date"); [|reflexivity].
    intros r Hr. rewrite Forall_forall in Hv.
    destruct (Hv r Hr) as (d & v & -> & _). now exists d, v. }
  assert (Hse : sum_field "Purchased Shares" PyFloat.zero espp_data
                = Some (fold_left PyFloat.add (purchased_quantities espp_data) PyFloat.zero)).
  { apply (sum_field_fold "Off Period"); [|reflexivity].
    intros r Hr. rewrite Forall_forall in He.
    destruct (He r Hr) as (d & v & -> & _). now exists d, v. }
  destruct vested_stocks as [|v vs].
  - destruct espp_data as [|e es]; [reflexivity|].
    rewrite Hse. reflexivity.
  - rewrite Hsv, Hse. reflexivity.
Qed.

Lemma totals_vested_are_running_sums_witness :
  read_vested_data true (inr [inr (Some scenario_A)])
  = inr (fold_left PyFloat.add
           (map snd (parsed_vested [[("Vest Date", "15.03.2024"); ("Shares", "150")]]))
           PyFloat.zero,
         fold_left PyFloat.add (purchased_quantities []) PyFloat.zero).
Proof.
  apply (totals_vested_are_running_sums (inr [inr (Some scenario_A)])
           [[("Vest Date", "15.03.2024"); ("Shares", "150")]] []).
  vm_compute. reflexivity.
Defined.
